(** * terraform-provider-hyperv: the DVD and VHD resource handlers

    A shallow embedding of
    - [internal/provider]: the DVD data source, the DVD resource and the VHD
      resource (their schemas and their create/read/update/delete handlers),
    - [api]: the [Dvd] record and the client interface the handlers call,
    - [api/hyperv-winrm]: the DVD methods of [ClientConfig],
    together with a model of the two pieces of the Terraform plugin SDK the
    handlers are written against ([schema.ResourceData] and [diag]).

    The handlers mutate the [*schema.ResourceData] they are handed and call a
    remote client; both effects are threaded through one state monad that also
    records, in order, every client call and every [d.Set] the handler makes.
    [log.Printf] calls and the [context.Context] argument are left out: no
    handler branches on either. *)

From Stdlib Require Import ZArith Lia.
From stdpp Require Import base option list strings gmap.

Open Scope string_scope.
Open Scope Z_scope.

(** ** Go values the handlers manipulate *)

(** The classification of errors of the execution engine. *)
Inductive ErrorKind :=
| ValidationError
| TransportFailure
| TimeoutError
| RemoteScriptFailure
| DecodeFailure.

(** A Go [error] value.  The handlers observe an error only through its
    [Error()] text and through its rendering under the verb [%+v] (the two
    coincide unless the error implements [fmt.Formatter]).  [kind] is the
    engine's classification, [None] for an error built by [fmt.Errorf]. *)
Record error := mkError {
  kind  : option ErrorKind;
  Error : string;
  PlusV : string }.

(** [fmt.Errorf] without [%w]: a fresh error that is its message. *)
Definition fmt_Errorf (msg : string) : error :=
  {| kind := None; Error := msg; PlusV := msg |}.

(** [uint64(n)] and [uint32(n)] for an [int] [n], and [int(n)] for a [uint64]
    [n], on a 64-bit platform. *)
Definition uint64 (n : Z) : Z := n mod 2 ^ 64.
Definition uint32 (n : Z) : Z := n mod 2 ^ 32.
Definition int_of_uint64 (n : Z) : Z :=
  if n mod 2 ^ 64 <? 2 ^ 63 then n mod 2 ^ 64 else n mod 2 ^ 64 - 2 ^ 64.

(** A handler either returns or panics (a failed type assertion). *)
Inductive Outcome (A : Type) :=
| Returns (a : A)
| Panics.
Arguments Returns {A} a.
Arguments Panics {A}.

(** The double quote character, for messages that contain it. *)
Definition dquote : string := String (Ascii.ascii_of_nat 34) EmptyString.

(** [strconv.Quote], which renders the verb [%q]: a function of the Go
    standard library, taken as given. *)
Class Strconv := { Quote : string -> string }.

(** ** The plugin SDK: [diag] *)

Module diag.

Inductive Severity := SevError | SevWarning.

Record Diagnostic := {
  Severity_ : Severity;
  Summary   : string;
  Detail    : string }.

Definition Diagnostics := list Diagnostic.

(** [diag.FromErr]: nil for a nil error, else one error diagnostic whose
    summary is the error's text. *)
Definition FromErr (err : option error) : Diagnostics :=
  match err with
  | None => []
  | Some e => [ {| Severity_ := SevError; Summary := Error e; Detail := "" |} ]
  end.

(** [diag.Errorf] with a format that has no verbs. *)
Definition Errorf (msg : string) : Diagnostics :=
  [ {| Severity_ := SevError; Summary := msg; Detail := "" |} ].

Definition HasError (ds : Diagnostics) : bool :=
  existsb (fun d => match Severity_ d with SevError => true | SevWarning => false end) ds.

End diag.

(** ** The plugin SDK: [schema]

    [helper/schema] of the Terraform plugin SDK, as far as the handlers use
    it: attributes are addressed by plain keys (no nested blocks), values
    are known (no value is still to be computed when a handler runs), and
    [Set] reports a rejected write by its error (it does not panic). *)

Module schema.

Inductive ValueType := TypeBool | TypeInt | TypeString.

(** The dynamically typed values ([interface{}]) that go in and out of a
    [ResourceData]. *)
Inductive Value :=
| VNil
| VBool (b : bool)
| VInt (n : Z)
| VString (s : string)
| VUint32 (n : Z)
| VUint64 (n : Z).

#[global] Instance Value_eq_dec : EqDecision Value.
Proof. solve_decision. Defined.

(** The fields of [schema.Schema] the handlers' schemas set ([Description],
    [Default], [DiffSuppressFunc] and [ValidateDiagFunc] act at plan time
    and are left out). *)
Record Schema := {
  Type_         : ValueType;
  Required      : bool;
  Optional      : bool;
  Computed      : bool;
  ForceNew      : bool;
  ConflictsWith : list string }.

Record Resource := { Schema_ : gmap string Schema }.

Definition Zero (t : ValueType) : Value :=
  match t with
  | TypeBool => VBool false
  | TypeInt => VInt 0
  | TypeString => VString ""
  end.

(** [ResourceData]: the schema it was built from, the prior state, the
    planned values (state merged with configuration and diff), what the
    handler has written with [Set], the id and the new-resource mark. *)
Record ResourceData := {
  schema_ : gmap string Schema;
  state   : gmap string Value;
  planned : gmap string Value;
  written : gmap string Value;
  id      : string;
  isNew   : bool }.

(** What the handler reads: its own writes over the planned values. *)
Definition merged (d : ResourceData) : gmap string Value :=
  written d ∪ planned d.

(** [GetOk]: nothing for a key the schema lacks; else the value, or the
    zero value of the key's type when none is held, and whether a value is
    held that is not that zero value. *)
Definition GetOk (d : ResourceData) (key : string) : Value * bool :=
  match schema_ d !! key with
  | None => (VNil, false)
  | Some s =>
      match merged d !! key with
      | None => (Zero (Type_ s), false)
      | Some v => (v, negb (bool_decide (v = Zero (Type_ s))))
      end
  end.

Definition Get (d : ResourceData) (key : string) : Value :=
  fst (GetOk d key).

(** Reading a key at one level, with the same defaults. *)
Definition read_level (d : ResourceData) (level : gmap string Value)
    (key : string) : Value :=
  match schema_ d !! key with
  | None => VNil
  | Some s => default (Zero (Type_ s)) (level !! key)
  end.

(** [HasChange]: the state level against the planned level. *)
Definition HasChange (d : ResourceData) (key : string) : bool :=
  negb (bool_decide (read_level d (planned d) key = read_level d (state d) key)).

Definition Id (d : ResourceData) : string := id d.

Definition SetId (d : ResourceData) (v : string) : ResourceData :=
  {| schema_ := schema_ d; state := state d; planned := planned d;
     written := written d; id := v; isNew := isNew d |}.

Definition IsNewResource (d : ResourceData) : bool := isNew d.

(** What the field writer stores for a value handed to [Set]: strict
    decoding into the schema type, integers of any width into [int] (a
    [uint64] wraps around, a [uint32] fits). *)
Definition encode (t : ValueType) (v : Value) : option Value :=
  match t, v with
  | TypeBool, VBool b => Some (VBool b)
  | TypeString, VString s => Some (VString s)
  | TypeInt, VInt n => Some (VInt n)
  | TypeInt, VUint32 n => Some (VInt n)
  | TypeInt, VUint64 n => Some (VInt (int_of_uint64 n))
  | _, _ => None
  end.

(** A value of the type a schema declares; a [ResourceData] all of whose
    readable values are, as the SDK's field readers ensure. *)
Definition has_type (t : ValueType) (v : Value) : bool :=
  match t, v with
  | TypeBool, VBool _ | TypeInt, VInt _ | TypeString, VString _ => true
  | _, _ => false
  end.

Definition well_typed (d : ResourceData) : bool :=
  forallb (fun '(key, s) => has_type (Type_ s) (Get d key))
          (map_to_list (schema_ d)).

Definition invalid_address (key : string) : error :=
  fmt_Errorf ("Invalid address to set: []string{" +:+ dquote +:+ key +:+ dquote +:+ "}").

Definition invalid_value (key : string) : error :=
  fmt_Errorf (key +:+ ": value has the wrong type").

(** [Set]: an error, and no write, for a key the schema does not declare
    or a value of the wrong type. *)
Definition Set_ (d : ResourceData) (key : string) (v : Value)
    : option error * ResourceData :=
  match schema_ d !! key with
  | None => (Some (invalid_address key), d)
  | Some s =>
      match encode (Type_ s) v with
      | None => (Some (invalid_value key), d)
      | Some v' =>
          (None,
           {| schema_ := schema_ d; state := state d; planned := planned d;
              written := <[key := v']> (written d); id := id d; isNew := isNew d |})
      end
  end.

End schema.

(** ** Package [api] *)

Module api.

Record Dvd := {
  Path : string;
  Ip   : string }.

(** The VHD half of the client interface is declared in a file of the
    package that is not embedded here; the handlers fix how its names are
    used.  [VhdType]
    is an enumeration with a member [VhdType_Differencing], [VhdType_name]
    is the name table indexed by it (the empty string for a member the
    table lacks, as a Go map lookup gives), [ToVhdType] reads a name. *)
Class VhdDecls := {
  VhdType : Type;
  VhdType_eq_dec :: EqDecision VhdType;
  VhdType_Differencing : VhdType;
  VhdType_name : VhdType -> string;
  ToVhdType : string -> VhdType }.

Section WithVhdDecls.
Context `{!VhdDecls}.

(** The fields of the VHD descriptor the read handler stores; the size is
    the [uint64] and the other three numbers are the [uint32] that
    [CreateOrUpdateVhd] takes them as. *)
Record Vhd := {
  VhdPath            : string;
  VhdType_           : VhdType;
  ParentPath         : string;
  Size               : Z;
  BlockSize          : Z;
  LogicalSectorSize  : Z;
  PhysicalSectorSize : Z }.

Record VhdExistsResult := { Exists : bool }.

(** The arguments of [CreateOrUpdateVhd], in the order of the call. *)
Record VhdArgs := {
  a_path : string;
  a_source : string;
  a_sourceVm : string;
  a_sourceDisk : Z;
  a_vhdType : VhdType;
  a_parentPath : string;
  a_size : Z;
  a_blockSize : Z;
  a_logicalSectorSize : Z;
  a_physicalSectorSize : Z }.

(** [api.Client], restricted to the DVD and VHD method groups.  A method
    acts on the remote world [W] and returns Go's (result, err) pair. *)
Record Client (W : Type) := {
  CreateDvd : string -> string -> W -> option error * W;
  DeleteDvd : string -> W -> option error * W;
  GetDvd : string -> string -> W -> (Dvd * option error) * W;
  VhdExists : string -> W -> (VhdExistsResult * option error) * W;
  CreateOrUpdateVhd : VhdArgs -> W -> option error * W;
  ResizeVhd : string -> Z -> W -> option error * W;
  GetVhd : string -> W -> (Vhd * option error) * W;
  DeleteVhd : string -> W -> option error * W }.

End WithVhdDecls.

Arguments CreateDvd {_ W} _ _ _ _.
Arguments DeleteDvd {_ W} _ _ _.
Arguments GetDvd {_ W} _ _ _ _.
Arguments VhdExists {_ W} _ _ _.
Arguments CreateOrUpdateVhd {_ W} _ _ _.
Arguments ResizeVhd {_ W} _ _ _ _.
Arguments GetVhd {_ W} _ _ _.
Arguments DeleteVhd {_ W} _ _ _.

End api.

(** ** Package [hyperv_winrm]: the DVD methods of [ClientConfig] *)

Module hyperv_winrm.
Import api.

(** The three script templates of dvd.go, by name.  A template's body is
    PowerShell text with the placeholders [{{.Path}}] and [{{.Ip}}];
    [text/template] substitutes the argument's fields verbatim. *)
Inductive Template := createDvdTemplate | getDvdTemplate | deleteDvdTemplate.

Definition template_name (t : Template) : string :=
  match t with
  | createDvdTemplate => "CreateDvd"
  | getDvdTemplate => "GetDvd"
  | deleteDvdTemplate => "DeleteDvd"
  end.

(** The argument structs, as the [interface{}] the runners receive. *)
Inductive Args :=
| createDvdArgs (Path Ip : string)
| getDvdArgs (Path Ip : string)
| deleteDvdArgs (Path : string).

(** A value of a JSON object member. *)
Inductive JValue := JNull | JBool (b : bool) | JNumber (n : Z) | JString (s : string).

(** What a runner needs of the type behind its [result interface{}]
    pointer: the zero value and the assignment of one object member (the
    key arrives lower-cased, member names match without regard to case). *)
Class Target (T : Type) := {
  zero_value : T;
  set_field : string -> JValue -> T -> T }.

#[global] Instance Dvd_Target : Target Dvd := {|
  zero_value := {| Path := ""; Ip := "" |};
  set_field k v t :=
    match v with
    | JString s =>
        if String.eqb k "path" then {| Path := s; Ip := Ip t |}
        else if String.eqb k "ip" then {| Path := Path t; Ip := s |}
        else t
    | _ => t
    end |}.

(** The two runners of the WinRM helper, as the interface [ClientConfig]
    calls them through. *)
Record WinRmClient (W : Type) := {
  RunFireAndForgetScript : Template -> Args -> W -> option error * W;
  RunScriptWithResult :
    forall T : Type, Target T -> Template -> Args -> T -> W -> (T * option error) * W }.
Arguments RunFireAndForgetScript {W} _ _ _ _.
Arguments RunScriptWithResult {W} _ {T _} _ _ _ _.

Record ClientConfig (W : Type) := { WinRmClient_ : WinRmClient W }.
Arguments WinRmClient_ {W} _.

Section Methods.
Context {W : Type}.

Definition CreateDvd (c : ClientConfig W) (path ip : string)
    : W -> option error * W :=
  fun w =>
    let '(err, w) :=
      RunFireAndForgetScript (WinRmClient_ c) createDvdTemplate
        (createDvdArgs path ip) w in
    (err, w).

Definition GetDvd (c : ClientConfig W) (path ip : string)
    : W -> (Dvd * option error) * W :=
  fun w =>
    let result : Dvd := zero_value in
    let '((result, err), w) :=
      RunScriptWithResult (WinRmClient_ c) getDvdTemplate
        (getDvdArgs path ip) result w in
    ((result, err), w).

Definition DeleteDvd (c : ClientConfig W) (path : string)
    : W -> option error * W :=
  fun w =>
    let '(err, w) :=
      RunFireAndForgetScript (WinRmClient_ c) deleteDvdTemplate
        (deleteDvdArgs path) w in
    (err, w).

End Methods.

(** *** Observing which runner a method goes through *)

Inductive RunnerCall :=
| FireAndForget (t : Template) (a : Args)
| WithResult (t : Template) (a : Args).

(** A WinRM client that behaves as [r] and appends every runner call to a
    journal kept next to the world. *)
Definition recording {W : Type} (r : WinRmClient W)
    : WinRmClient (W * list RunnerCall) := {|
  RunFireAndForgetScript t a '(w, j) :=
    let '(err, w') := RunFireAndForgetScript r t a w in
    (err, (w', (j ++ [FireAndForget t a])%list));
  RunScriptWithResult T _ t a target '(w, j) :=
    let '(res, w') := RunScriptWithResult r t a target w in
    (res, (w', (j ++ [WithResult t a])%list)) |}.

(** *** The body of [getDvdTemplate] *)

(** What the script reads of the remote host: [Test-Path] and
    [ConvertTo-Json] on a table of string members. *)
Record RemoteHost := {
  Test_Path : string -> bool;
  ConvertTo_Json : list (string * string) -> string }.

(** The text the rendered [getDvdTemplate] writes to its output, [$path]
    and [$ip] being the single-quoted literals the placeholders stand in
    (which denote the arguments when these hold no apostrophe). *)
Definition getDvdScript (h : RemoteHost) (path ip : string) : string :=
  if Test_Path h path then
    let dvd := [("Path", path); ("Ip", ip)] in
    let dvd := ConvertTo_Json h dvd in
    dvd
  else "{}".

(** *** The runners *)

(** Modelled from the spec: the rendered script the Template Renderer
    (4.1) produces is missing from the sources as text; it is kept as the
    template together with the argument bound to its placeholders. *)
Record Script := { tmpl : Template; bound : Args }.

Definition render (t : Template) (a : Args) : Script :=
  {| tmpl := t; bound := a |}.

(** Modelled from the spec: the ExecutionResult of the data model. *)
Record ExecutionResult := {
  exitCode : Z;
  stdout   : string;
  stderr   : string }.

(** Modelled from the spec: the Session Transport (4.2), missing from the
    sources: [execute] submits a script and blocks until it completes,
    failing with a TransportFailure or a Timeout error of its own. *)
Record Transport (W : Type) := {
  execute : Script -> W -> (ExecutionResult * option error) * W }.
Arguments execute {W} _ _ _.

Definition is_space (c : Ascii.ascii) : bool :=
  let n := Ascii.nat_of_ascii c in
  (Nat.eqb n 32 || Nat.eqb n 9 || Nat.eqb n 10 || Nat.eqb n 13)%bool.

Fixpoint is_blank (s : string) : bool :=
  match s with
  | EmptyString => true
  | String c s' => is_space c && is_blank s'
  end.

Definition lower_ascii (c : Ascii.ascii) : Ascii.ascii :=
  let n := Ascii.nat_of_ascii c in
  if (Nat.leb 65 n && Nat.leb n 90)%bool then Ascii.ascii_of_nat (n + 32) else c.

Fixpoint to_lower (s : string) : string :=
  match s with
  | EmptyString => EmptyString
  | String c s' => String (lower_ascii c) (to_lower s')
  end.

Section Runners.
Context {W : Type}.

(** The reader of a well-formed payload in object notation: the members
    in order, or nothing for a malformed payload. *)
Variable parse_object : string -> option (list (string * JValue)).

(** Modelled from the spec: the Result Decoder (4.4), missing from the
    sources.  The empty-object marker and empty or whitespace-only
    output give the zero value and no error; a well-formed payload
    populates the target member by member, keys matched without regard
    to case; a malformed payload is a DecodeFailure carrying the raw
    payload. *)
Definition decode {T : Type} `{Target T} (out : string) : T * option error :=
  if (String.eqb out "{}" || is_blank out)%bool then (zero_value, None)
  else
    match parse_object out with
    | Some members =>
        (fold_left (fun t '(k, v) => set_field (to_lower k) v t) members zero_value,
         None)
    | None =>
        (zero_value,
         Some {| kind := Some DecodeFailure; Error := out; PlusV := out |})
    end.

Definition script_failed (r : ExecutionResult) : bool :=
  (negb (exitCode r =? 0) || negb (String.eqb (stderr r) ""))%bool.

Definition remote_script_failure (r : ExecutionResult) : error :=
  {| kind := Some RemoteScriptFailure; Error := stderr r; PlusV := stderr r |}.

(** Modelled from the spec: the Script Executor (4.3), missing from the
    sources: render, execute, and on success hand the captured output to
    the decoder (empty output with exit code 0 included, the not-found
    signal of a lookup script); a non-zero exit code or non-empty error
    output is a RemoteScriptFailure carrying the error output; an error of
    the transport is passed on. *)
Definition runWithResult (tr : Transport W) {T : Type} `{Target T}
    (t : Template) (a : Args) (target : T) (w : W) : (T * option error) * W :=
  let '((r, err), w') := execute tr (render t a) w in
  match err with
  | Some e => ((target, Some e), w')
  | None =>
      if script_failed r then ((target, Some (remote_script_failure r)), w')
      else (decode (stdout r), w')
  end.

(** Modelled from the spec: the Fire-and-Forget Runner (4.5), missing
    from the sources: the same pipeline without decoding. *)
Definition run (tr : Transport W) (t : Template) (a : Args) (w : W)
    : option error * W :=
  let '((r, err), w') := execute tr (render t a) w in
  match err with
  | Some e => (Some e, w')
  | None =>
      if script_failed r then (Some (remote_script_failure r), w')
      else (None, w')
  end.

(** Modelled from the spec: the WinRM helper behind [ClientConfig],
    missing from the sources, assembled from the two runners above. *)
Definition engine (tr : Transport W) : WinRmClient W := {|
  RunFireAndForgetScript := run tr;
  RunScriptWithResult T _ := runWithResult tr |}.

End Runners.

End hyperv_winrm.

(** ** Package [provider] *)

Module provider.
Import api schema diag.

(** *** Schemas *)

Definition attribute (t : ValueType) (required optional computed forceNew : bool)
    (conflicts : list string) : Schema :=
  {| Type_ := t; Required := required; Optional := optional;
     Computed := computed; ForceNew := forceNew; ConflictsWith := conflicts |}.

Definition dataSourceHyperVDvd : Resource := {|
  Schema_ := list_to_map [
    ("path", attribute TypeString true false false false []);
    ("source", attribute TypeString false true false false
                 ["source_vm"; "parent_path"; "source_disk"]) ] |}.

Definition resourceHyperVDvd : Resource := {|
  Schema_ := list_to_map [
    ("path", attribute TypeString true false false true []);
    ("ip", attribute TypeString true false false true []);
    ("exists", attribute TypeBool false false true false []) ] |}.

Definition resourceHyperVVhd : Resource := {|
  Schema_ := list_to_map [
    ("path", attribute TypeString true false false false []);
    ("source", attribute TypeString false true false false
                 ["source_vm"; "parent_path"; "source_disk"]);
    ("source_vm", attribute TypeString false true false false
                 ["source"; "parent_path"; "source_disk"]);
    ("source_disk", attribute TypeInt false true false false
                 ["source"; "source_vm"; "parent_path"]);
    ("vhd_type", attribute TypeString false true false false
                 ["source"; "source_vm"]);
    ("parent_path", attribute TypeString false true false false
                 ["source"; "source_vm"; "source_disk"; "size"]);
    ("size", attribute TypeInt false true true false ["parent_path"]);
    ("block_size", attribute TypeInt false true true true
                 ["source"; "source_vm"; "parent_path"]);
    ("logical_sector_size", attribute TypeInt false true true true
                 ["source"; "source_vm"; "parent_path"]);
    ("physical_sector_size", attribute TypeInt false true true true
                 ["source"; "source_vm"; "parent_path"]);
    ("exists", attribute TypeBool false false true false []) ] |}.

(** A step of a handler body goes on with a value, leaves the handler
    with its diagnostics ([return]), or panics. *)
Inductive Step (A : Type) :=
| Next (a : A)
| Return_ (ds : Diagnostics)
| Panic.
Arguments Next {A} a.
Arguments Return_ {A} ds.
Arguments Panic {A}.

Section Handlers.
Context `{!VhdDecls} `{!Strconv} {W : Type}.

(** *** What a handler does, in order *)

(** One entry per client call, with what the client answered, and one
    per [d.Set], with what the store answered. *)
Inductive Event :=
| CallCreateDvd (path ip : string) (err : option error)
| CallDeleteDvd (path : string) (err : option error)
| CallGetDvd (path ip : string) (result : Dvd) (err : option error)
| CallVhdExists (path : string) (result : VhdExistsResult) (err : option error)
| CallCreateOrUpdateVhd (args : VhdArgs) (err : option error)
| CallResizeVhd (path : string) (size : Z) (err : option error)
| CallGetVhd (path : string) (result : Vhd) (err : option error)
| CallDeleteVhd (path : string) (err : option error)
| DataSet (key : string) (v : Value) (err : option error).

(** The state a handler runs in: the [ResourceData] behind [d], the
    remote world behind the client, and the journal. *)
Record Run := {
  data    : ResourceData;
  world   : W;
  journal : list Event }.

Definition M (A : Type) : Type := Run -> Step A * Run.

Definition ret {A} (a : A) : M A := fun r => (Next a, r).

Definition bind {A B} (m : M A) (f : A -> M B) : M B := fun r =>
  match m r with
  | (Next a, r') => f a r'
  | (Return_ ds, r') => (Return_ ds, r')
  | (Panic, r') => (Panic, r')
  end.

Notation "x ← y ; z" := (bind y (fun x => z))
  (at level 20, y at level 100, z at level 200, only parsing).
Notation "' x ← y ; z" := (bind y (fun x => z))
  (at level 20, x pattern, y at level 100, z at level 200, only parsing).
Notation "x ;; z" := (bind x (fun _ => z))
  (at level 100, z at level 200, only parsing, right associativity).

Definition return_ {A} (ds : Diagnostics) : M A := fun r => (Return_ ds, r).
Definition panic {A} : M A := fun r => (Panic, r).

Definition when (b : bool) (m : M unit) : M unit :=
  if b then m else ret tt.

(** [if err != nil { return diag.FromErr(err) }] *)
Definition check (err : option error) : M unit :=
  match err with
  | Some _ => return_ (FromErr err)
  | None => ret tt
  end.

(** Running a handler: its diagnostics, whether it left by a [return]
    inside the body or by its last statement. *)
Definition handle (m : M Diagnostics) (r : Run) : Outcome Diagnostics * Run :=
  match m r with
  | (Next ds, r') => (Returns ds, r')
  | (Return_ ds, r') => (Returns ds, r')
  | (Panic, r') => (Panics, r')
  end.

(** Type assertions [v.(string)], [v.(int)], [v.(bool)]. *)
Definition as_string (v : Value) : M string :=
  match v with VString s => ret s | _ => panic end.
Definition as_int (v : Value) : M Z :=
  match v with VInt n => ret n | _ => panic end.
Definition as_bool (v : Value) : M bool :=
  match v with VBool b => ret b | _ => panic end.

(** The methods of [d]. *)
Definition d_Get (key : string) : M Value :=
  fun r => (Next (Get (data r) key), r).
Definition d_GetOk (key : string) : M (Value * bool) :=
  fun r => (Next (GetOk (data r) key), r).
Definition d_Id : M string :=
  fun r => (Next (Id (data r)), r).
Definition d_IsNewResource : M bool :=
  fun r => (Next (IsNewResource (data r)), r).
Definition d_HasChange (key : string) : M bool :=
  fun r => (Next (HasChange (data r) key), r).
Definition d_SetId (v : string) : M unit :=
  fun r => (Next tt, {| data := SetId (data r) v; world := world r;
                        journal := journal r |}).
Definition d_Set (key : string) (v : Value) : M (option error) :=
  fun r =>
    let '(err, d') := Set_ (data r) key v in
    (Next err, {| data := d'; world := world r;
                  journal := (journal r ++ [DataSet key v err])%list |}).

(** [d.Get(key).(string)], [d.Get(key).(int)], [d.Get(key).(bool)]. *)
Definition get_string (key : string) : M string := v ← d_Get key; as_string v.
Definition get_int (key : string) : M Z := v ← d_Get key; as_int v.
Definition get_bool (key : string) : M bool := v ← d_Get key; as_bool v.

(** A call of a client method: the world moves on and the call is
    journalled with its answer. *)
Definition call {R : Type} (f : W -> R * W) (ev : R -> Event) : M R :=
  fun r =>
    let '(res, w') := f (world r) in
    (Next res, {| data := data r; world := w';
                  journal := (journal r ++ [ev res])%list |}).

(** *** Reading a journal *)

(** The error a client call came back with; a [d.Set] is no client
    call. *)
Definition call_error (ev : Event) : option error :=
  match ev with
  | CallCreateDvd _ _ err | CallDeleteDvd _ err | CallGetDvd _ _ _ err
  | CallVhdExists _ _ err | CallCreateOrUpdateVhd _ err
  | CallResizeVhd _ _ err | CallGetVhd _ _ err | CallDeleteVhd _ err => err
  | DataSet _ _ _ => None
  end.

Definition is_call (ev : Event) : bool :=
  match ev with DataSet _ _ _ => false | _ => true end.

Definition is_ResizeVhd (ev : Event) : bool :=
  match ev with CallResizeVhd _ _ _ => true | _ => false end.

Definition is_CreateOrUpdateVhd (ev : Event) : bool :=
  match ev with CallCreateOrUpdateVhd _ _ => true | _ => false end.

(** The values handed to [d.Set key], in order. *)
Definition set_values (key : string) (j : list Event) : list Value :=
  omap (fun ev => match ev with
                  | DataSet k v _ => if String.eqb k key then Some v else None
                  | _ => None
                  end) j.

(** The events a run has added to the journal between [r] and [r']. *)
Definition since (r r' : Run) : list Event :=
  drop (length (journal r)) (journal r').

(** No client call but possibly the last one came back with an error. *)
Fixpoint quiet_init (evs : list Event) : bool :=
  match evs with
  | [] => true
  | ev :: rest =>
      match rest with
      | [] => true
      | _ :: _ =>
          match call_error ev with
          | None => quiet_init rest
          | Some _ => false
          end
      end
  end.

(** A [CreateOrUpdateVhd] call that came back without, or with, an
    error. *)
Definition is_created (ev : Event) : bool :=
  match ev with CallCreateOrUpdateVhd _ None => true | _ => false end.

Definition is_create_failure (ev : Event) : bool :=
  match ev with CallCreateOrUpdateVhd _ (Some _) => true | _ => false end.

(** The guard of the resize follow-up, on the attributes as read. *)
Definition resize_guard (size : Z) (parentPath : string) : bool :=
  (0 <? uint64 size) && String.eqb parentPath "".

(** The writes of the VHD read, in order, for a descriptor [vhd]. *)
Definition vhd_read_writes (vhd : Vhd) : list Event :=
  [ DataSet "path" (VString (VhdPath vhd)) None;
    DataSet "exists" (VBool (negb (String.eqb (VhdPath vhd) ""))) None;
    DataSet "vhd_type" (VString (VhdType_name (VhdType_ vhd))) None ]
  ++ (if bool_decide (VhdType_ vhd = VhdType_Differencing) then
        [ DataSet "parent_path" (VString (ParentPath vhd)) None ]
      else
        [ DataSet "size" (VUint64 (Size vhd)) None;
          DataSet "block_size" (VUint32 (BlockSize vhd)) None;
          DataSet "logical_sector_size" (VUint32 (LogicalSectorSize vhd)) None;
          DataSet "physical_sector_size" (VUint32 (PhysicalSectorSize vhd)) None ]).

Section WithClient.
Variable c : Client W.

Definition c_CreateDvd (path ip : string) : M (option error) :=
  call (CreateDvd c path ip) (CallCreateDvd path ip).
Definition c_DeleteDvd (path : string) : M (option error) :=
  call (DeleteDvd c path) (CallDeleteDvd path).
Definition c_GetDvd (path ip : string) : M (Dvd * option error) :=
  call (GetDvd c path ip) (fun '(res, err) => CallGetDvd path ip res err).
Definition c_VhdExists (path : string) : M (VhdExistsResult * option error) :=
  call (VhdExists c path) (fun '(res, err) => CallVhdExists path res err).
Definition c_CreateOrUpdateVhd (args : VhdArgs) : M (option error) :=
  call (CreateOrUpdateVhd c args) (CallCreateOrUpdateVhd args).
Definition c_ResizeVhd (path : string) (size : Z) : M (option error) :=
  call (ResizeVhd c path size) (CallResizeVhd path size).
Definition c_GetVhd (path : string) : M (Vhd * option error) :=
  call (GetVhd c path) (fun '(res, err) => CallGetVhd path res err).
Definition c_DeleteVhd (path : string) : M (option error) :=
  call (DeleteVhd c path) (CallDeleteVhd path).

(** *** The DVD data source *)

Definition datasourceHyperVDvdRead : M Diagnostics :=
  '(v, ok) ← d_GetOk "path";
  path ← (if ok then as_string v
          else return_ (Errorf "[ERROR][hyperv][read] path argument is required"));
  '(vhd, err) ← c_GetVhd path;
  check err;;
  err ← d_Set "path" (VString (VhdPath vhd));
  check err;;
  (if negb (String.eqb (VhdPath vhd) "") then
     err ← d_Set "exists" (VBool false);
     check err
   else
     err ← d_Set "exists" (VBool true);
     check err);;
  d_SetId path;;
  ret [].

(** *** The DVD resource *)

Definition resourceHyperVDvdCreate : M Diagnostics :=
  path ← get_string "path";
  ip ← get_string "ip";
  err ← c_CreateDvd path ip;
  check err;;
  d_SetId path;;
  ret [].

Definition resourceHyperVDvdRead : M Diagnostics :=
  path ← d_Id;
  ip ← get_string "ip";
  '(dvd, err) ← c_GetDvd path ip;
  check err;;
  err ← d_Set "path" (VString (Path dvd));
  check err;;
  (if String.eqb (Path dvd) "" then
     err ← d_Set "exists" (VBool false);
     check err
   else
     err ← d_Set "exists" (VBool true);
     check err);;
  ret [].

Definition resourceHyperVDvdDelete : M Diagnostics :=
  path ← d_Id;
  err ← c_DeleteDvd path;
  check err;;
  ret [].

(** *** The VHD resource *)

Definition resourceHyperVVhdRead : M Diagnostics :=
  path ← d_Id;
  '(vhd, err) ← c_GetVhd path;
  check err;;
  err ← d_Set "path" (VString (VhdPath vhd));
  check err;;
  (if String.eqb (VhdPath vhd) "" then
     err ← d_Set "exists" (VBool false);
     check err
   else
     err ← d_Set "exists" (VBool true);
     check err);;
  err ← d_Set "vhd_type" (VString (VhdType_name (VhdType_ vhd)));
  check err;;
  (if bool_decide (VhdType_ vhd = VhdType_Differencing) then
     err ← d_Set "parent_path" (VString (ParentPath vhd));
     check err
   else
     err ← d_Set "size" (VUint64 (Size vhd));
     check err;;
     err ← d_Set "block_size" (VUint32 (BlockSize vhd));
     check err;;
     err ← d_Set "logical_sector_size" (VUint32 (LogicalSectorSize vhd));
     check err;;
     err ← d_Set "physical_sector_size" (VUint32 (PhysicalSectorSize vhd));
     check err);;
  ret [].

Definition newline : string := String (Ascii.ascii_of_nat 10) EmptyString.

(** The two errors create builds with [fmt.Errorf]. *)
Definition checking_for_existing (path : string) (err : error) : error :=
  fmt_Errorf ("checking for existing " +:+ path +:+ ": " +:+ PlusV err).

Definition already_exists (path : string) : error :=
  fmt_Errorf
    ("A resource with the ID " +:+ Quote path +:+
     " already exists - to be managed via Terraform this resource needs to be imported into the State. Please see the resource documentation for " +:+
     Quote "hyperv_vhd" +:+
     " for more information." +:+ newline +:+
     " terraform import " +:+ "hyperv_vhd" +:+ ".<resource name> " +:+ path).

Definition resourceHyperVVhdCreate : M Diagnostics :=
  '(v, ok) ← d_GetOk "path";
  path ← (if ok then as_string v
          else return_ (Errorf "[ERROR][hyperv][create] path argument is required"));
  isNew ← d_IsNewResource;
  when isNew (
    '(existing, err) ← c_VhdExists path;
    match err with
    | Some e => return_ (FromErr (Some (checking_for_existing path e)))
    | None => ret tt
    end;;
    when (Exists existing) (return_ (FromErr (Some (already_exists path)))));;
  source ← get_string "source";
  sourceVm ← get_string "source_vm";
  sourceDisk ← get_int "source_disk";
  vhdType ← get_string "vhd_type";
  let vhdType := ToVhdType vhdType in
  parentPath ← get_string "parent_path";
  size ← get_int "size";
  let size := uint64 size in
  blockSize ← get_int "block_size";
  let blockSize := uint32 blockSize in
  logicalSectorSize ← get_int "logical_sector_size";
  let logicalSectorSize := uint32 logicalSectorSize in
  physicalSectorSize ← get_int "physical_sector_size";
  let physicalSectorSize := uint32 physicalSectorSize in
  err ← c_CreateOrUpdateVhd
          {| a_path := path; a_source := source; a_sourceVm := sourceVm;
             a_sourceDisk := sourceDisk; a_vhdType := vhdType;
             a_parentPath := parentPath; a_size := size;
             a_blockSize := blockSize;
             a_logicalSectorSize := logicalSectorSize;
             a_physicalSectorSize := physicalSectorSize |};
  check err;;
  when ((0 <? size) && String.eqb parentPath "") (
    err ← c_ResizeVhd path size;
    check err);;
  d_SetId path;;
  resourceHyperVVhdRead.

Definition resourceHyperVVhdUpdate : M Diagnostics :=
  path ← d_Id;
  source ← get_string "source";
  sourceVm ← get_string "source_vm";
  sourceDisk ← get_int "source_disk";
  vhdType ← get_string "vhd_type";
  let vhdType := ToVhdType vhdType in
  parentPath ← get_string "parent_path";
  size ← get_int "size";
  let size := uint64 size in
  blockSize ← get_int "block_size";
  let blockSize := uint32 blockSize in
  logicalSectorSize ← get_int "logical_sector_size";
  let logicalSectorSize := uint32 logicalSectorSize in
  physicalSectorSize ← get_int "physical_sector_size";
  let physicalSectorSize := uint32 physicalSectorSize in
  exists_ ← get_bool "exists";
  pathChanged ← d_HasChange "path";
  sourceChanged ← d_HasChange "source";
  sourceVmChanged ← d_HasChange "source_vm";
  sourceDiskChanged ← d_HasChange "source_disk";
  parentPathChanged ← d_HasChange "parent_path";
  when (negb exists_ || pathChanged || sourceChanged || sourceVmChanged
        || sourceDiskChanged || parentPathChanged) (
    err ← c_CreateOrUpdateVhd
            {| a_path := path; a_source := source; a_sourceVm := sourceVm;
               a_sourceDisk := sourceDisk; a_vhdType := vhdType;
               a_parentPath := parentPath; a_size := size;
               a_blockSize := blockSize;
               a_logicalSectorSize := logicalSectorSize;
               a_physicalSectorSize := physicalSectorSize |};
    check err);;
  when ((0 <? size) && String.eqb parentPath "") (
    sizeChanged ← d_HasChange "size";
    when (negb exists_ || sizeChanged) (
      err ← c_ResizeVhd path size;
      check err));;
  resourceHyperVVhdRead.

Definition resourceHyperVVhdDelete : M Diagnostics :=
  path ← d_Id;
  err ← c_DeleteVhd path;
  check err;;
  ret [].

(** *** The eight operations of the DVD and VHD handlers *)

Inductive Operation :=
| VhdCreate | VhdRead | VhdUpdate | VhdDelete
| DvdCreate | DvdRead | DvdDelete
| DvdDataSourceRead.

Definition operation (op : Operation) : M Diagnostics :=
  match op with
  | VhdCreate => resourceHyperVVhdCreate
  | VhdRead => resourceHyperVVhdRead
  | VhdUpdate => resourceHyperVVhdUpdate
  | VhdDelete => resourceHyperVVhdDelete
  | DvdCreate => resourceHyperVDvdCreate
  | DvdRead => resourceHyperVDvdRead
  | DvdDelete => resourceHyperVDvdDelete
  | DvdDataSourceRead => datasourceHyperVDvdRead
  end.

(** The error an operation reports for a client call that failed
    with [e]: the error itself, but for the existence check of create,
    which wraps its text. *)
Definition reported (op : Operation) (ev : Event) (e : error) : error :=
  match op, ev with
  | VhdCreate, CallVhdExists path _ _ => checking_for_existing path e
  | _, _ => e
  end.

(** *** Reading what an operation did *)

(** The client calls among the events of a journal, in order. *)
Definition calls (evs : list Event) : list Event := List.filter is_call evs.

(** The resource whose schema the SDK builds an operation's
    [ResourceData] from. *)
Definition resource_of (op : Operation) : Resource :=
  match op with
  | VhdCreate | VhdRead | VhdUpdate | VhdDelete => resourceHyperVVhd
  | DvdCreate | DvdRead | DvdDelete => resourceHyperVDvd
  | DvdDataSourceRead => dataSourceHyperVDvd
  end.

(** The test of update before [CreateOrUpdateVhd]:
    [!exists || d.HasChange("path") || d.HasChange("source")
     || d.HasChange("source_vm") || d.HasChange("source_disk")
     || d.HasChange("parent_path")]. *)
Definition recreate_guard (d : ResourceData) (exists_ : bool) : bool :=
  negb exists_ || HasChange d "path" || HasChange d "source"
  || HasChange d "source_vm" || HasChange d "source_disk"
  || HasChange d "parent_path".

(** The three client methods update calls. *)
Definition is_update_call (ev : Event) : bool :=
  match ev with
  | CallCreateOrUpdateVhd _ _ | CallResizeVhd _ _ _ | CallGetVhd _ _ _ => true
  | _ => false
  end.

(** The path argument of a client call. *)
Definition call_path (ev : Event) : option string :=
  match ev with
  | CallCreateOrUpdateVhd args _ => Some (a_path args)
  | CallResizeVhd path _ _ | CallGetVhd path _ _ | CallVhdExists path _ _
  | CallDeleteVhd path _ | CallCreateDvd path _ _ | CallDeleteDvd path _
  | CallGetDvd path _ _ _ => Some path
  | DataSet _ _ _ => None
  end.


End WithClient.
End Handlers.

End provider.


(** ** The Go library functions of the [DiffSuppressFunc]s

    [path.Ext] and, of package [strings], [HasPrefix], [HasSuffix],
    [TrimSuffix], [ToLower] and [EqualFold], on strings as byte
    sequences.  [ToLower] and [EqualFold] are written out for ASCII
    input, where the library takes its byte-wise path; what they return
    on other input is left to the class [Unicode]. *)

Module gostd.

Class Unicode := {
  ToLower_general : string -> string;
  EqualFold_general : string -> string -> bool }.

(** [c < utf8.RuneSelf] *)
Definition is_ascii_byte (c : Ascii.ascii) : bool :=
  Nat.ltb (Ascii.nat_of_ascii c) 128.

Fixpoint is_ascii (s : string) : bool :=
  match s with
  | EmptyString => true
  | String c s' => is_ascii_byte c && is_ascii s'
  end.

(** [len(s) >= len(prefix) && s[:len(prefix)] == prefix] *)
Definition HasPrefix (s prefix : string) : bool :=
  Nat.leb (String.length prefix) (String.length s)
  && String.eqb (String.substring 0 (String.length prefix) s) prefix.

(** [len(s) >= len(suffix) && s[len(s)-len(suffix):] == suffix] *)
Definition HasSuffix (s suffix : string) : bool :=
  Nat.leb (String.length suffix) (String.length s)
  && String.eqb
       (String.substring (String.length s - String.length suffix)
          (String.length suffix) s) suffix.

Definition TrimSuffix (s suffix : string) : string :=
  if HasSuffix s suffix
  then String.substring 0 (String.length s - String.length suffix) s
  else s.

(** [if 'A' <= c && c <= 'Z' { c += 'a' - 'A' }] *)
Definition lower_byte (c : Ascii.ascii) : Ascii.ascii :=
  let n := Ascii.nat_of_ascii c in
  if Nat.leb 65 n && Nat.leb n 90 then Ascii.ascii_of_nat (n + 32) else c.

Fixpoint lower_bytes (s : string) : string :=
  match s with
  | EmptyString => EmptyString
  | String c s' => String (lower_byte c) (lower_bytes s')
  end.

(** One step of the byte-wise loop of [EqualFold]: the bytes are equal,
    or the smaller is an upper-case letter and the larger its lower-case
    form. *)
Definition fold_byte (sr tr : Ascii.ascii) : bool :=
  let a := Ascii.nat_of_ascii sr in
  let b := Ascii.nat_of_ascii tr in
  if Nat.eqb a b then true
  else
    let lo := Nat.min a b in
    let hi := Nat.max a b in
    Nat.leb 65 lo && Nat.leb lo 90 && Nat.eqb hi (lo + 32).

(** The loop, and its final [len(s) == len(t)]. *)
Fixpoint fold_bytes (s t : string) : bool :=
  match s, t with
  | EmptyString, EmptyString => true
  | String a s', String b t' => fold_byte a b && fold_bytes s' t'
  | _, _ => false
  end.

Section WithUnicode.
Context `{!Unicode}.

Definition ToLower (s : string) : string :=
  if is_ascii s then lower_bytes s else ToLower_general s.

Definition EqualFold (s t : string) : bool :=
  if is_ascii s && is_ascii t then fold_bytes s t else EqualFold_general s t.

End WithUnicode.

Definition is_dot (c : Ascii.ascii) : bool := Nat.eqb (Ascii.nat_of_ascii c) 46.
Definition is_slash (c : Ascii.ascii) : bool := Nat.eqb (Ascii.nat_of_ascii c) 47.

(** The loop of [path.Ext], with [i] one above the index it looks at:
    [for i := len(path) - 1; i >= 0 && path[i] != '/'; i--
       { if path[i] == '.' { return path[i:] } }; return ""]. *)
Fixpoint ext_from (path : string) (i : nat) : string :=
  match i with
  | O => ""
  | S j =>
      match String.get j path with
      | Some c =>
          if is_slash c then ""
          else if is_dot c then String.substring j (String.length path - j) path
          else ext_from path j
      | None => ""
      end
  end.

Definition Ext (path : string) : string := ext_from path (String.length path).

(** Names without a dot or a slash, and the one-byte string of a dot. *)
Definition plain_char (c : Ascii.ascii) : bool :=
  negb (is_dot c) && negb (is_slash c).

Fixpoint plain_name (s : string) : bool :=
  match s with
  | EmptyString => true
  | String c s' => plain_char c && plain_name s'
  end.

Definition dot : string := String (Ascii.ascii_of_nat 46) EmptyString.

End gostd.

(** ** The [DiffSuppressFunc]s of the schemas

    The function of [path], the same in the DVD and the VHD resource,
    and the function of [parent_path] in the VHD resource. *)

Module suppress.
Import schema gostd.
Section WithUnicode.
Context `{!Unicode}.

Definition pathDiffSuppress (k oldValue newValue : string)
    (d : ResourceData) : bool :=
  let extension := Ext newValue in
  let computedPath := TrimSuffix newValue extension in
  if HasPrefix (ToLower oldValue) (ToLower computedPath)
     && HasSuffix (ToLower oldValue) (ToLower extension)
  then true
  else if EqualFold oldValue newValue then true
  else false.

Definition parentPathDiffSuppress (k oldValue newValue : string)
    (d : ResourceData) : bool :=
  EqualFold oldValue newValue.

End WithUnicode.
End suppress.


(** ** Sample instances

    A four-member [VhdType], a quoting function and clients with canned
    answers, on which the statements below are evaluated. *)

Module sample.
Import api schema diag provider.

Inductive VhdTypeSample := Unknown | Fixed | Dynamic | Differencing.

#[global] Instance VhdTypeSample_eq_dec : EqDecision VhdTypeSample.
Proof. solve_decision. Defined.

#[global] Instance decls : VhdDecls := {|
  VhdType := VhdTypeSample;
  VhdType_Differencing := Differencing;
  VhdType_name t :=
    match t with
    | Unknown => "Unknown" | Fixed => "Fixed"
    | Dynamic => "Dynamic" | Differencing => "Differencing"
    end;
  ToVhdType s :=
    if String.eqb s "Fixed" then Fixed
    else if String.eqb s "Dynamic" then Dynamic
    else if String.eqb s "Differencing" then Differencing
    else Unknown |}.

#[global] Instance quoting : Strconv := {|
  Quote s := dquote +:+ s +:+ dquote |}.

(** A client that answers every lookup with the same descriptors and
    fails the methods [fails] names, each with the error [boom]. *)
Definition boom : error :=
  {| kind := Some TransportFailure; Error := "connection reset";
     PlusV := "connection reset" |}.

Definition failing (fails : list string) (method : string) : option error :=
  if existsb (String.eqb method) fails then Some boom else None.

Definition canned (vhd : Vhd) (dvd : Dvd) (present : bool)
    (fails : list string) : Client unit := {|
  CreateDvd _ _ w := (failing fails "CreateDvd", w);
  DeleteDvd _ w := (failing fails "DeleteDvd", w);
  GetDvd _ _ w := ((dvd, failing fails "GetDvd"), w);
  VhdExists _ w := (({| Exists := present |}, failing fails "VhdExists"), w);
  CreateOrUpdateVhd _ w := (failing fails "CreateOrUpdateVhd", w);
  ResizeVhd _ _ w := (failing fails "ResizeVhd", w);
  GetVhd _ w := ((vhd, failing fails "GetVhd"), w);
  DeleteVhd _ w := (failing fails "DeleteVhd", w) |}.

Definition no_vhd : Vhd := {|
  VhdPath := ""; VhdType_ := Unknown; ParentPath := ""; Size := 0;
  BlockSize := 0; LogicalSectorSize := 0; PhysicalSectorSize := 0 |}.

Definition disk : Vhd := {|
  VhdPath := "c:/vms/disk.vhdx"; VhdType_ := Dynamic; ParentPath := "";
  Size := 8192; BlockSize := 4096; LogicalSectorSize := 512;
  PhysicalSectorSize := 4096 |}.

Definition child_disk : Vhd := {|
  VhdPath := "c:/vms/child.vhdx"; VhdType_ := Differencing;
  ParentPath := "c:/vms/disk.vhdx";
  Size := 8192; BlockSize := 4096; LogicalSectorSize := 512;
  PhysicalSectorSize := 4096 |}.

Definition no_dvd : Dvd := {| Path := ""; Ip := "" |}.
Definition iso : Dvd := {| Path := "c:/vms/seed.iso"; Ip := "172.16.14.84" |}.

(** A [ResourceData] of a resource with the given planned values, nothing
    in the prior state and nothing written yet. *)
Definition fresh (res : Resource) (values : list (string * Value))
    (ident : string) (new : bool) : ResourceData := {|
  schema_ := Schema_ res; state := ∅; planned := list_to_map values;
  written := ∅; id := ident; isNew := new |}.

(** A [ResourceData] of a resource already in the state, planned with the
    same values. *)
Definition settled (res : Resource) (values : list (string * Value))
    (ident : string) : ResourceData := {|
  schema_ := Schema_ res; state := list_to_map values;
  planned := list_to_map values; written := ∅; id := ident; isNew := false |}.

Definition start (d : ResourceData) : Run (W := unit) :=
  {| data := d; world := tt; journal := [] |}.

(** Clients of a host where the disk is there, where nothing is, where
    the differencing child is, and one whose existence check fails. *)
Definition here : Client unit := canned disk no_dvd true [].
Definition nowhere : Client unit := canned no_vhd no_dvd false [].
Definition child : Client unit := canned child_disk no_dvd false [].
Definition unreachable : Client unit := canned disk no_dvd true ["VhdExists"].

(** The runs the statements are evaluated on. *)

Definition disk_path : string := "c:/vms/disk.vhdx".

(** A data-source read of a disk that is there, and of one that is not. *)
Definition lookup_run : Run (W := unit) :=
  start (fresh dataSourceHyperVDvd [("path", VString disk_path)] "" false).

(** A read with no path configured. *)
Definition unset_run : Run (W := unit) :=
  start (fresh resourceHyperVVhd [] "" true).

(** A create of a new 8 KiB dynamic disk. *)
Definition create_run : Run (W := unit) :=
  start (fresh resourceHyperVVhd
           [("path", VString disk_path); ("size", VInt 8192)] "" true).

(** A create of a differencing disk: size 0 and a parent path. *)
Definition differencing_run : Run (W := unit) :=
  start (fresh resourceHyperVVhd
           [("path", VString "c:/vms/child.vhdx");
            ("parent_path", VString disk_path);
            ("vhd_type", VString "Differencing")] "" true).

(** An update of a disk that exists, with nothing changed. *)
Definition update_run : Run (W := unit) :=
  start (settled resourceHyperVVhd
           [("path", VString disk_path); ("size", VInt 8192);
            ("exists", VBool true)] disk_path).

(** A refresh of a managed disk and of a managed DVD. *)
Definition refresh_run : Run (W := unit) :=
  start (settled resourceHyperVVhd
           [("path", VString disk_path); ("size", VInt 4096);
            ("parent_path", VString "c:/vms/base.vhdx")] disk_path).

Definition dvd_refresh_run : Run (W := unit) :=
  start (settled resourceHyperVDvd
           [("path", VString "c:/vms/seed.iso"); ("ip", VString "172.16.14.84")]
           "c:/vms/seed.iso").

(** A remote host with one ISO on it, and a transport that runs the
    lookup script there and lets every other script succeed silently. *)
Import hyperv_winrm.

Definition member_json (m : string * string) : string :=
  dquote +:+ fst m +:+ dquote +:+ ":" +:+ dquote +:+ snd m +:+ dquote.

Definition host : RemoteHost := {|
  Test_Path p := String.eqb p "c:/vms/seed.iso";
  ConvertTo_Json members :=
    "{" +:+ String.concat "," (map member_json members) +:+ "}" |}.

Definition transport : Transport unit := {|
  execute script w :=
    match tmpl script, bound script with
    | getDvdTemplate, getDvdArgs p ip =>
        (({| exitCode := 0; stdout := getDvdScript host p ip; stderr := "" |},
          None), w)
    | _, _ => (({| exitCode := 0; stdout := ""; stderr := "" |}, None), w)
    end |}.

(** A reader of objects whose members are strings without escapes. *)
Definition after (code : nat) (s : string) : option string :=
  match s with
  | String ch rest =>
      if Nat.eqb (Ascii.nat_of_ascii ch) code then Some rest else None
  | EmptyString => None
  end.

Fixpoint until_quote (s : string) : option (string * string) :=
  match s with
  | EmptyString => None
  | String ch rest =>
      if Nat.eqb (Ascii.nat_of_ascii ch) 34 then Some (EmptyString, rest)
      else match until_quote rest with
           | Some (word, rest') => Some (String ch word, rest')
           | None => None
           end
  end.

Definition quoted (s : string) : option (string * string) :=
  match after 34 s with
  | Some rest => until_quote rest
  | None => None
  end.

Fixpoint members (fuel : nat) (s : string) : option (list (string * JValue)) :=
  match fuel with
  | O => None
  | S fuel' =>
      match quoted s with
      | Some (key, s1) =>
          match after 58 s1 with
          | Some s2 =>
              match quoted s2 with
              | Some (val, s3) =>
                  match after 44 s3 with
                  | Some s4 =>
                      match members fuel' s4 with
                      | Some ms => Some ((key, JString val) :: ms)
                      | None => None
                      end
                  | None =>
                      match after 125 s3 with
                      | Some EmptyString => Some [(key, JString val)]
                      | _ => None
                      end
                  end
              | None => None
              end
          | None => None
          end
      | None => None
      end
  end.

Definition parse_object (s : string) : option (list (string * JValue)) :=
  match after 123 s with
  | Some rest => members (String.length s) rest
  | None => None
  end.

Definition winrm : ClientConfig unit :=
  {| WinRmClient_ := engine parse_object transport |}.

(** A host where the disk is found once it has been created. *)
Definition created : Client unit := canned disk no_dvd false [].

(** A create of a disk whose configured size is negative. *)
Definition negative_run : Run (W := unit) :=
  start (fresh resourceHyperVVhd
           [("path", VString disk_path); ("size", VInt (-4096))] "" true).

(** A create of a DVD. *)
Definition dvd_create_run : Run (W := unit) :=
  start (fresh resourceHyperVDvd
           [("path", VString "c:/vms/seed.iso"); ("ip", VString "172.16.14.84")]
           "" true).

(** Case mapping that leaves input with bytes outside ASCII alone. *)
#[global] Instance bytewise : gostd.Unicode := {|
  gostd.ToLower_general s := s;
  gostd.EqualFold_general s t := String.eqb s t |}.

(** The run a refresh on the host [here] ends in. *)
Definition refreshed_run : Run (W := unit) :=
  snd (handle (resourceHyperVVhdRead here) refresh_run).



End sample.

(** * Properties *)

(** ** The DVD methods of the WinRM client *)

Section WinRmFacts.
Import api hyperv_winrm.
Context {W : Type}.
Variable parse_object : string -> option (list (string * JValue)).

Lemma is_blank_empty : is_blank "" = true.
Proof. reflexivity. Qed.

Lemma decode_empty_object :
  decode parse_object "{}" = (zero_value : Dvd, None).
Proof. reflexivity. Qed.

Lemma decode_blank (out : string) :
  is_blank out = true -> decode parse_object out = (zero_value : Dvd, None).
Proof.
  intros Hb. unfold decode. rewrite Hb, orb_true_r. reflexivity.
Qed.

Lemma getDvdScript_absent (h : RemoteHost) (path ip : string) :
  Test_Path h path = false -> getDvdScript h path ip = "{}".
Proof. intros Hp. unfold getDvdScript. now rewrite Hp. Qed.

(** C5.  [GetDvd] for a path that is not on the remote host: the script
    of [getDvdTemplate] writes exactly the empty-object marker, and when
    the execution completes with exit code 0 and that output (or with no
    output at all) [GetDvd] returns the zero [Dvd], both fields empty, and
    no error; the decoder gives the zero value and no error on the marker
    and on empty output. *)
Theorem GetDvd_absent_path (tr : Transport W) (h : RemoteHost)
    (path ip out : string) (w w' : W) :
  Test_Path h path = false ->
  out = getDvdScript h path ip \/ out = "" ->
  execute tr (render getDvdTemplate (getDvdArgs path ip)) w
    = (({| exitCode := 0; stdout := out; stderr := "" |}, None), w') ->
  getDvdScript h path ip = "{}"
  /\ GetDvd {| WinRmClient_ := engine parse_object tr |} path ip w
     = (({| Path := ""; Ip := "" |}, None), w')
  /\ decode parse_object "{}" = ({| Path := ""; Ip := "" |}, None)
  /\ decode parse_object "" = ({| Path := ""; Ip := "" |}, None).
Proof.
  intros Hp Hout Hexec.
  pose proof (getDvdScript_absent h path ip Hp) as Hscript.
  repeat split; trivial.
  unfold GetDvd; cbn [WinRmClient_ engine RunScriptWithResult].
  unfold runWithResult. rewrite Hexec. cbn.
  destruct Hout as [-> | ->].
  - rewrite Hscript. reflexivity.
  - reflexivity.
Qed.

(** C8.  Whatever the WinRM client, [CreateDvd] and [DeleteDvd] make one
    call of the fire-and-forget runner, with their own template and
    arguments, and return the error it returns, their only result;
    [GetDvd] makes one call of the result-bearing runner with a zero [Dvd]
    as target and returns the target and the error that runner leaves.
    With the engine of the specification a successful execution makes
    [GetDvd] return the decoded output, while the error [CreateDvd] and
    [DeleteDvd] return does not depend on the output. *)
Theorem dvd_methods_runners :
  (forall (r : WinRmClient W) (path ip : string) (w : W) (j : list RunnerCall),
     let c := {| WinRmClient_ := recording r |} in
     CreateDvd c path ip (w, j)
     = (fst (RunFireAndForgetScript r createDvdTemplate (createDvdArgs path ip) w),
        (snd (RunFireAndForgetScript r createDvdTemplate (createDvdArgs path ip) w),
         (j ++ [FireAndForget createDvdTemplate (createDvdArgs path ip)])%list))
     /\ DeleteDvd c path (w, j)
        = (fst (RunFireAndForgetScript r deleteDvdTemplate (deleteDvdArgs path) w),
           (snd (RunFireAndForgetScript r deleteDvdTemplate (deleteDvdArgs path) w),
            (j ++ [FireAndForget deleteDvdTemplate (deleteDvdArgs path)])%list))
     /\ GetDvd c path ip (w, j)
        = (fst (RunScriptWithResult r getDvdTemplate (getDvdArgs path ip)
                  {| Path := ""; Ip := "" |} w),
           (snd (RunScriptWithResult r getDvdTemplate (getDvdArgs path ip)
                   {| Path := ""; Ip := "" |} w),
            (j ++ [WithResult getDvdTemplate (getDvdArgs path ip)])%list)))
  /\ (forall (tr : Transport W) (path ip : string) (res : ExecutionResult) (w w' : W),
        let c := {| WinRmClient_ := engine parse_object tr |} in
        script_failed res = false ->
        (execute tr (render getDvdTemplate (getDvdArgs path ip)) w = ((res, None), w') ->
         GetDvd c path ip w = (decode parse_object (stdout res), w'))
        /\ (execute tr (render createDvdTemplate (createDvdArgs path ip)) w
              = ((res, None), w') ->
            CreateDvd c path ip w = (None, w'))
        /\ (execute tr (render deleteDvdTemplate (deleteDvdArgs path)) w
              = ((res, None), w') ->
            DeleteDvd c path w = (None, w'))).
Proof.
  split.
  - intros r path ip w j c. subst c.
    unfold CreateDvd, DeleteDvd, GetDvd; cbn [WinRmClient_ recording
      RunFireAndForgetScript RunScriptWithResult zero_value Dvd_Target].
    repeat split.
    + destruct (RunFireAndForgetScript r createDvdTemplate _ w); reflexivity.
    + destruct (RunFireAndForgetScript r deleteDvdTemplate _ w); reflexivity.
    + destruct (RunScriptWithResult r getDvdTemplate _ _ w) as [[res err] w1];
        reflexivity.
  - intros tr path ip res w w' c Hok. subst c.
    unfold CreateDvd, DeleteDvd, GetDvd; cbn [WinRmClient_ engine
      RunFireAndForgetScript RunScriptWithResult].
    unfold runWithResult, run.
    repeat split; intros ->; rewrite Hok.
    + destruct (decode parse_object (stdout res)) as [d e]; reflexivity.
    + reflexivity.
    + reflexivity.
Qed.

End WinRmFacts.

(** ** The schema store *)

Section StoreFacts.
Import schema.

Lemma Set_undeclared (d : ResourceData) (key : string) (v : Value) :
  schema_ d !! key = None -> Set_ d key v = (Some (invalid_address key), d).
Proof. intros Hk. unfold Set_. now rewrite Hk. Qed.

Lemma Set_failure (d d' : ResourceData) (key : string) (v : Value) (e : error) :
  Set_ d key v = (Some e, d') -> d' = d.
Proof.
  unfold Set_. destruct (schema_ d !! key) as [s|]; [|congruence].
  destruct (encode (Type_ s) v); congruence.
Qed.

Lemma Set_success (d d' : ResourceData) (key : string) (v : Value) :
  Set_ d key v = (None, d') ->
  exists s v', schema_ d !! key = Some s /\ encode (Type_ s) v = Some v'
    /\ schema_ d' = schema_ d /\ written d' = <[key := v']> (written d)
    /\ planned d' = planned d /\ state d' = state d
    /\ id d' = id d /\ isNew d' = isNew d.
Proof.
  unfold Set_. destruct (schema_ d !! key) as [s|] eqn:Hs; [|congruence].
  destruct (encode (Type_ s) v) as [v'|] eqn:He; [|congruence].
  intros [= <-]. exists s, v'. now cbn.
Qed.

Lemma Set_declared (d : ResourceData) (key : string) (v v' : Value) (s : Schema) :
  schema_ d !! key = Some s -> encode (Type_ s) v = Some v' ->
  exists d', Set_ d key v = (None, d') /\ schema_ d' = schema_ d.
Proof.
  intros Hs He. unfold Set_. rewrite Hs, He. eexists. split; reflexivity.
Qed.

Lemma Get_Set_same (d d' : ResourceData) (key : string) (v : Value) :
  Set_ d key v = (None, d') ->
  exists s, schema_ d !! key = Some s /\ encode (Type_ s) v = Some (Get d' key).
Proof.
  intros HS. destruct (Set_success _ _ _ _ HS)
    as (s & v' & Hs & He & Hsch & Hw & _).
  exists s. split; [exact Hs|].
  unfold Get, GetOk, merged. rewrite Hsch, Hs, Hw.
  rewrite (lookup_union_l' _ _ key) by (rewrite lookup_insert_eq; eauto).
  rewrite lookup_insert_eq. exact He.
Qed.

Lemma Get_Set_other (d d' : ResourceData) (key key' : string) (v : Value)
    (err : option error) :
  Set_ d key v = (err, d') -> key' <> key -> Get d' key' = Get d key'.
Proof.
  intros HS Hne. destruct err as [e|].
  - now rewrite (Set_failure _ _ _ _ _ HS).
  - destruct (Set_success _ _ _ _ HS) as (s & v' & _ & _ & Hsch & Hw & Hp & _).
    unfold Get, GetOk, merged. rewrite Hsch, Hw, Hp.
    rewrite !lookup_union, lookup_insert_ne by congruence. reflexivity.
Qed.


Lemma encode_bool (t : ValueType) (b : bool) (v' : Value) :
  encode t (VBool b) = Some v' -> v' = VBool b.
Proof. destruct t; cbn; congruence. Qed.

Lemma encode_string (t : ValueType) (s : string) (v' : Value) :
  encode t (VString s) = Some v' -> v' = VString s.
Proof. destruct t; cbn; congruence. Qed.

Lemma encode_uint64 (t : ValueType) (n : Z) (v' : Value) :
  encode t (VUint64 n) = Some v' -> v' = VInt (int_of_uint64 n).
Proof. destruct t; cbn; congruence. Qed.

Lemma encode_uint32 (t : ValueType) (n : Z) (v' : Value) :
  encode t (VUint32 n) = Some v' -> v' = VInt n.
Proof. destruct t; cbn; congruence. Qed.

(** What [Get] gives right after a successful [Set] of the same key. *)
Lemma Get_Set_bool (d d' : ResourceData) (key : string) (b : bool) :
  Set_ d key (VBool b) = (None, d') -> Get d' key = VBool b.
Proof.
  intros HS. destruct (Get_Set_same _ _ _ _ HS) as (s & _ & He).
  now apply encode_bool in He.
Qed.

Lemma Get_Set_string (d d' : ResourceData) (key s : string) :
  Set_ d key (VString s) = (None, d') -> Get d' key = VString s.
Proof.
  intros HS. destruct (Get_Set_same _ _ _ _ HS) as (sc & _ & He).
  now apply encode_string in He.
Qed.

Lemma Get_Set_uint64 (d d' : ResourceData) (key : string) (n : Z) :
  Set_ d key (VUint64 n) = (None, d') -> Get d' key = VInt (int_of_uint64 n).
Proof.
  intros HS. destruct (Get_Set_same _ _ _ _ HS) as (sc & _ & He).
  now apply encode_uint64 in He.
Qed.

Lemma Get_Set_uint32 (d d' : ResourceData) (key : string) (n : Z) :
  Set_ d key (VUint32 n) = (None, d') -> Get d' key = VInt n.
Proof.
  intros HS. destruct (Get_Set_same _ _ _ _ HS) as (sc & _ & He).
  now apply encode_uint32 in He.
Qed.

(** A well-typed [ResourceData] answers [Get] with a value of the
    declared type. *)
Lemma well_typed_Get (d : ResourceData) (key : string) (s : Schema) :
  well_typed d = true -> schema_ d !! key = Some s ->
  has_type (Type_ s) (Get d key) = true.
Proof.
  unfold well_typed. rewrite forallb_forall. intros Hall Hs.
  apply (Hall (key, s)). apply list_elem_of_In, elem_of_map_to_list, Hs.
Qed.

Lemma has_type_string (t : ValueType) (v : Value) :
  t = TypeString -> has_type t v = true -> exists s, v = VString s.
Proof. intros ->. destruct v; cbn; try discriminate. eauto. Qed.

Lemma has_type_int (t : ValueType) (v : Value) :
  t = TypeInt -> has_type t v = true -> exists n, v = VInt n.
Proof. intros ->. destruct v; cbn; try discriminate. eauto. Qed.

Lemma has_type_bool (t : ValueType) (v : Value) :
  t = TypeBool -> has_type t v = true -> exists b, v = VBool b.
Proof. intros ->. destruct v; cbn; try discriminate. eauto. Qed.

(** A path that is absent, or present and empty, is not ok for [GetOk]
    when the schema declares it a string. *)
Lemma GetOk_path_unset (d : ResourceData) (s : Schema) :
  schema_ d !! "path" = Some s -> Type_ s = TypeString ->
  merged d !! "path" = None \/ merged d !! "path" = Some (VString "") ->
  snd (GetOk d "path") = false.
Proof.
  intros Hs Ht Hm. unfold GetOk. rewrite Hs, Ht.
  destruct Hm as [-> | ->]; reflexivity.
Qed.

End StoreFacts.

(** ** The integer conversions *)

Section IntFacts.

Lemma uint64_negative (n : Z) :
  - 2 ^ 63 <= n < 0 -> uint64 n = n + 2 ^ 64.
Proof.
  intros Hn. unfold uint64.
  rewrite <- (Z.mod_add n 1 (2 ^ 64)) by lia.
  rewrite Z.mul_1_l. apply Z.mod_small. lia.
Qed.

Lemma int_of_uint64_small (n : Z) :
  0 <= n < 2 ^ 63 -> int_of_uint64 n = n.
Proof.
  intros Hn. unfold int_of_uint64.
  rewrite Z.mod_small by lia.
  destruct (Z.ltb_spec n (2 ^ 63)); lia.
Qed.

Lemma int_of_uint64_large (n : Z) :
  2 ^ 63 <= n < 2 ^ 64 -> int_of_uint64 n = n - 2 ^ 64.
Proof.
  intros Hn. unfold int_of_uint64.
  rewrite Z.mod_small by lia.
  destruct (Z.ltb_spec n (2 ^ 63)); lia.
Qed.

Lemma int_of_uint64_uint64 (n : Z) :
  - 2 ^ 63 <= n < 2 ^ 63 -> int_of_uint64 (uint64 n) = n.
Proof.
  intros Hn. destruct (Z.lt_ge_cases n 0).
  - rewrite uint64_negative by lia. rewrite int_of_uint64_large; lia.
  - unfold uint64. rewrite Z.mod_small by lia. apply int_of_uint64_small. lia.
Qed.

End IntFacts.


(** ** The handlers *)

Section HandlerFacts.
Import api schema diag provider.
Context `{!VhdDecls} `{!Strconv} {W : Type}.
Implicit Types (c : Client W) (r : Run (W := W)) (evs : list Event).

(** *** Journals *)

Lemma since_app r r' evs :
  journal r' = (journal r ++ evs)%list -> since r r' = evs.
Proof. intros Hj. unfold since. rewrite Hj. apply drop_app_length. Qed.

Lemma since_refl r d w : since r {| data := d; world := w; journal := journal r |} = [].
Proof. unfold since; cbn. apply drop_all. Qed.

Lemma quiet_init_split evs :
  quiet_init evs = true ->
  forall pre ev post e,
    evs = (pre ++ ev :: post)%list -> call_error ev = Some e ->
    post = [] /\ Forall (fun ev' => call_error ev' = None) pre.
Proof.
  induction evs as [|ev0 [|ev1 rest] IH]; intros Hq pre ev post e Heq He.
  - destruct pre; discriminate.
  - destruct pre as [|p pre]; cbn in Heq.
    + injection Heq as _ <-. now split.
    + destruct pre; discriminate.
  - cbn [quiet_init] in Hq.
    destruct (call_error ev0) eqn:Hq0; [discriminate|].
    destruct pre as [|p pre]; cbn in Heq.
    + injection Heq as -> _. congruence.
    + injection Heq as -> Heq.
      destruct (IH Hq pre ev post e Heq He) as [-> Hpre].
      split; [reflexivity | now constructor].
Qed.

(** *** Running a handler by cases *)

Ltac unfold_run H :=
  cbv beta delta [handle operation
    datasourceHyperVDvdRead resourceHyperVDvdCreate resourceHyperVDvdRead
    resourceHyperVDvdDelete resourceHyperVVhdCreate resourceHyperVVhdRead
    resourceHyperVVhdUpdate resourceHyperVVhdDelete
    bind ret return_ panic when check get_string get_int get_bool
    as_string as_int as_bool
    d_Get d_GetOk d_Id d_IsNewResource d_HasChange d_SetId d_Set call
    IsNewResource Id
    c_CreateDvd c_DeleteDvd c_GetDvd c_VhdExists c_CreateOrUpdateVhd
    c_ResizeVhd c_GetVhd c_DeleteVhd] in H.

Ltac simp_run H :=
  cbv beta iota zeta in H; cbn [data world journal fst snd Exists] in H.

Ltac break_run H :=
  match type of H with
  | context [match ?x with _ => _ end] =>
      lazymatch x with
      | context [match _ with _ => _ end] => fail
      | _ => destruct x eqn:?
      end
  end.

(** Every path of the handler in [H : handle _ r = (out, r')]. *)
Ltac run_all H :=
  unfold_run H;
  repeat (simp_run H; try break_run H);
  inversion H; subst; clear H.

(** The path of the handler the equations [Hs] select. *)
Ltac run_with H rew :=
  unfold_run H;
  repeat (simp_run H; first [ progress rew H | break_run H ]);
  inversion H; subst; clear H.

Ltac tidy_journal :=
  unfold since; cbn [journal]; rewrite <- ?app_assoc; cbn [app];
  rewrite ?drop_app_length, ?drop_all.

(** *** Validation of the path argument *)

(** C7.  When [GetOk] does not report the path argument as set, VHD
    create and the DVD data-source read return their validation error
    and leave the run as it was: no client call has been made, the
    journal and the remote world are unchanged. *)
Theorem path_required c r :
  snd (GetOk (data r) "path") = false ->
  handle (resourceHyperVVhdCreate c) r
    = (Returns (Errorf "[ERROR][hyperv][create] path argument is required"), r)
  /\ handle (datasourceHyperVDvdRead c) r
    = (Returns (Errorf "[ERROR][hyperv][read] path argument is required"), r)
  /\ forall op out r',
       op = VhdCreate \/ op = DvdDataSourceRead ->
       handle (operation c op) r = (out, r') ->
       since r r' = [] /\ world r' = world r.
Proof.
  intros Hok.
  assert (Hc : handle (resourceHyperVVhdCreate c) r
    = (Returns (Errorf "[ERROR][hyperv][create] path argument is required"), r)).
  { unfold handle, resourceHyperVVhdCreate, bind, d_GetOk.
    destruct (GetOk (data r) "path") as [v ok]. cbn in Hok. subst ok.
    reflexivity. }
  assert (Hd : handle (datasourceHyperVDvdRead c) r
    = (Returns (Errorf "[ERROR][hyperv][read] path argument is required"), r)).
  { unfold handle, datasourceHyperVDvdRead, bind, d_GetOk.
    destruct (GetOk (data r) "path") as [v ok]. cbn in Hok. subst ok.
    reflexivity. }
  split; [exact Hc|]. split; [exact Hd|].
  intros op out r' Hop Hrun.
  assert (r' = r) as ->.
  { destruct Hop as [-> | ->]; cbn [operation] in Hrun;
      rewrite ?Hc, ?Hd in Hrun; now injection Hrun as _ <-. }
  split; [|reflexivity]. destruct r; apply since_refl.
Qed.

(** *** Create refuses a disk that is already there *)

(** C9.  For a new resource whose path is set, the first thing create
    does is call [VhdExists] on that path.  When the call succeeds and
    reports that the disk exists, create returns the already-exists error
    and that call is the only entry of its journal: no
    [CreateOrUpdateVhd], no [ResizeVhd], no [d.Set]; the remote world is
    the one [VhdExists] left. *)
Theorem create_refuses_existing c r path :
  IsNewResource (data r) = true ->
  GetOk (data r) "path" = (VString path, true) ->
  (forall out r',
     handle (resourceHyperVVhdCreate c) r = (out, r') ->
     exists rest,
       since r r'
       = CallVhdExists path (fst (fst (VhdExists c path (world r))))
           (snd (fst (VhdExists c path (world r)))) :: rest)
  /\ (forall res w',
        VhdExists c path (world r) = ((res, None), w') ->
        Exists res = true ->
        handle (resourceHyperVVhdCreate c) r
        = (Returns (FromErr (Some (already_exists path))),
           {| data := data r; world := w';
              journal := (journal r ++ [CallVhdExists path res None])%list |})
        /\ forall out r',
             handle (resourceHyperVVhdCreate c) r = (out, r') ->
             since r r' = [CallVhdExists path res None]
             /\ existsb is_CreateOrUpdateVhd (since r r') = false
             /\ existsb is_ResizeVhd (since r r') = false
             /\ exists ds, out = Returns ds /\ HasError ds = true).
Proof.
  intros Hnew Hpath. unfold IsNewResource in Hnew. split.
  - intros out r' Hrun.
    run_with Hrun ltac:(fun H => first [rewrite Hpath in H | rewrite Hnew in H]).
    all: try match goal with
         | Hx : VhdExists _ _ _ = _ |- _ => rewrite Hx
         end.
    all: tidy_journal; cbn [fst snd]; eexists; reflexivity.
  - intros res w' Hex Hres.
    assert (Hrun : handle (resourceHyperVVhdCreate c) r
        = (Returns (FromErr (Some (already_exists path))),
           {| data := data r; world := w';
              journal := (journal r ++ [CallVhdExists path res None])%list |})).
    { unfold handle, resourceHyperVVhdCreate, bind, d_GetOk, d_IsNewResource,
        when, c_VhdExists, call, as_string, ret, return_.
      rewrite Hpath; cbn. unfold IsNewResource.
      rewrite Hnew, Hex; cbn. rewrite Hres. reflexivity. }
    split; [exact Hrun|].
    intros out r' Hrun'. rewrite Hrun in Hrun'. injection Hrun' as <- <-.
    tidy_journal. cbn. repeat split; eauto.
Qed.


(** *** The DVD data source *)


Lemma dataSourceHyperVDvd_attributes :
  Schema_ dataSourceHyperVDvd !! "exists" = None
  /\ dom (Schema_ dataSourceHyperVDvd) = {[ "path"; "source" ]}.
Proof. split; [reflexivity | vm_compute; reflexivity]. Qed.

(** C3.  With the schema of the DVD data source, which declares ["path"]
    and ["source"] and no ["exists"], a read whose lookup succeeds ends
    in the [d.Set("exists", _)] the store rejects, and returns that
    rejection; and no read at all returns without an error diagnostic. *)
Theorem dvd_datasource_read_fails c r out r' :
  schema_ (data r) = Schema_ dataSourceHyperVDvd ->
  handle (datasourceHyperVDvdRead c) r = (out, r') ->
  out <> Returns []
  /\ (forall ds, out = Returns ds -> HasError ds = true)
  /\ (forall path vhd w',
        GetOk (data r) "path" = (VString path, true) ->
        GetVhd c path (world r) = ((vhd, None), w') ->
        out = Returns (FromErr (Some (invalid_address "exists")))
        /\ since r r'
           = [CallGetVhd path vhd None;
              DataSet "path" (VString (VhdPath vhd)) None;
              DataSet "exists" (VBool (String.eqb (VhdPath vhd) ""))
                (Some (invalid_address "exists"))])
  /\ Schema_ dataSourceHyperVDvd !! "exists" = None
  /\ dom (Schema_ dataSourceHyperVDvd) = {[ "path"; "source" ]}.
Proof.
  intros Hsch Hrun.
  assert (Hex : forall d v, schema_ d = Schema_ dataSourceHyperVDvd ->
                  Set_ d "exists" v = (Some (invalid_address "exists"), d)).
  { intros d v Hd. apply Set_undeclared. now rewrite Hd. }
  assert (Hpa : forall p, exists d1,
            Set_ (data r) "path" (VString p) = (None, d1)
            /\ schema_ d1 = Schema_ dataSourceHyperVDvd).
  { intros p.
    destruct (Set_declared (data r) "path" (VString p) (VString p)
                (attribute TypeString true false false false []))
      as (d1 & Hd1 & Hs1); [now rewrite Hsch | reflexivity |].
    exists d1. split; [exact Hd1 | congruence]. }
  split; [|split; [|split; [|exact dataSourceHyperVDvd_attributes]]].
  - intros ->.
    run_all Hrun.
    all: match goal with
         | Hp : Set_ _ "path" (VString ?p) = _ |- _ =>
             destruct (Hpa p) as (d1 & Hd1 & Hs1); rewrite Hd1 in Hp;
             inversion Hp; subst
         end.
    all: match goal with
         | Hx : Set_ ?d "exists" ?v = _ |- _ => rewrite (Hex d v Hs1) in Hx
         end; discriminate.
  - intros ds ->.
    run_all Hrun; try reflexivity.
    all: try (exfalso).
    all: match goal with
         | Hp : Set_ _ "path" (VString ?p) = _ |- _ =>
             destruct (Hpa p) as (d1 & Hd1 & Hs1); rewrite Hd1 in Hp;
             inversion Hp; subst
         end.
    all: match goal with
         | Hx : Set_ ?d "exists" ?v = _ |- _ => rewrite (Hex d v Hs1) in Hx
         end; discriminate.
  - intros path vhd w' Hpath Hget.
    destruct (Hpa (VhdPath vhd)) as (d1 & Hd1 & Hs1).
    run_with Hrun ltac:(fun H =>
      first [rewrite Hpath in H | rewrite Hget in H | rewrite Hd1 in H
            | rewrite (Hex d1 _ Hs1) in H]).
    all: split; [reflexivity | tidy_journal].
    all: match goal with
         | Hb : negb _ = _ |- _ =>
             apply (f_equal negb) in Hb; rewrite negb_involutive in Hb;
             cbn in Hb; rewrite Hb
         end; reflexivity.
Qed.


(** *** The resource reads *)

Ltac read_back :=
  repeat match goal with
  | Hs : Set_ ?d ?k (VBool ?b) = (None, ?d') |- context [Get ?d' ?k] =>
      rewrite (Get_Set_bool d d' k b Hs)
  | Hs : Set_ ?d ?k (VString ?s) = (None, ?d') |- context [Get ?d' ?k] =>
      rewrite (Get_Set_string d d' k s Hs)
  | Hs : Set_ ?d ?k (VUint64 ?n) = (None, ?d') |- context [Get ?d' ?k] =>
      rewrite (Get_Set_uint64 d d' k n Hs)
  | Hs : Set_ ?d ?k (VUint32 ?n) = (None, ?d') |- context [Get ?d' ?k] =>
      rewrite (Get_Set_uint32 d d' k n Hs)
  | Hs : Set_ ?d ?k ?v = (?e, ?d') |- context [Get ?d' ?k'] =>
      rewrite (Get_Set_other d d' k k' v e Hs) by discriminate
  end.

(** What a VHD read that returns no diagnostics has done. *)
Lemma vhd_read_success c r r' :
  handle (resourceHyperVVhdRead c) r = (Returns [], r') ->
  exists vhd,
    GetVhd c (Id (data r)) (world r) = ((vhd, None), world r')
    /\ since r r' = CallGetVhd (Id (data r)) vhd None :: vhd_read_writes vhd
    /\ Get (data r') "path" = VString (VhdPath vhd)
    /\ Get (data r') "exists" = VBool (negb (String.eqb (VhdPath vhd) ""))
    /\ Get (data r') "vhd_type" = VString (VhdType_name (VhdType_ vhd))
    /\ (VhdType_ vhd = VhdType_Differencing ->
          Get (data r') "parent_path" = VString (ParentPath vhd)
          /\ Get (data r') "size" = Get (data r) "size"
          /\ Get (data r') "block_size" = Get (data r) "block_size"
          /\ Get (data r') "logical_sector_size" = Get (data r) "logical_sector_size"
          /\ Get (data r') "physical_sector_size" = Get (data r) "physical_sector_size")
    /\ (VhdType_ vhd <> VhdType_Differencing ->
          Get (data r') "size" = VInt (int_of_uint64 (Size vhd))
          /\ Get (data r') "block_size" = VInt (BlockSize vhd)
          /\ Get (data r') "logical_sector_size" = VInt (LogicalSectorSize vhd)
          /\ Get (data r') "physical_sector_size" = VInt (PhysicalSectorSize vhd)
          /\ Get (data r') "parent_path" = Get (data r) "parent_path").
Proof.
  intros Hrun. run_all Hrun.
  all: match goal with
       | Hg : GetVhd _ _ _ = ((?v, None), _) |- _ => exists v
       end.
  all: match goal with
       | Hd : bool_decide (_ = VhdType_Differencing) = true |- _ =>
           pose proof (bool_decide_eq_true_1 _ Hd) as Hdiff
       | Hd : bool_decide (_ = VhdType_Differencing) = false |- _ =>
           pose proof (bool_decide_eq_false_1 _ Hd) as Hdiff
       end.
  all: cbn [data world]; unfold vhd_read_writes;
    repeat match goal with
           | Hb : String.eqb _ _ = _ |- _ => rewrite Hb; clear Hb
           | Hb : bool_decide _ = _ |- _ => rewrite Hb; clear Hb
           end; cbn [negb app].
  all: split; [assumption|]; split; [tidy_journal; reflexivity|].
  all: repeat split; try contradiction; read_back; reflexivity.
Qed.


(** What a DVD read that returns no diagnostics has done. *)
Lemma dvd_read_success c r r' :
  handle (resourceHyperVDvdRead c) r = (Returns [], r') ->
  exists ip dvd,
    Get (data r) "ip" = VString ip
    /\ GetDvd c (Id (data r)) ip (world r) = ((dvd, None), world r')
    /\ since r r'
       = [ CallGetDvd (Id (data r)) ip dvd None;
           DataSet "path" (VString (Path dvd)) None;
           DataSet "exists" (VBool (negb (String.eqb (Path dvd) ""))) None ]
    /\ Get (data r') "path" = VString (Path dvd)
    /\ Get (data r') "exists" = VBool (negb (String.eqb (Path dvd) "")).
Proof.
  intros Hrun. run_all Hrun.
  all: match goal with
       | Hi : Get _ "ip" = VString ?i,
         Hg : GetDvd _ _ _ _ = ((?v, None), _) |- _ => exists i, v
       end.
  all: cbn [data world];
    repeat match goal with
           | Hb : String.eqb _ _ = _ |- _ => rewrite Hb; clear Hb
           end; cbn [negb].
  all: split; [reflexivity|]; split; [assumption|];
    split; [tidy_journal; reflexivity|].
  all: split; read_back; reflexivity.
Qed.

Lemma Set_schema (d d' : ResourceData) (key : string) (v : Value)
    (err : option error) :
  Set_ d key v = (err, d') -> schema_ d' = schema_ d.
Proof.
  intros HS. destruct err as [e|].
  - now rewrite (Set_failure _ _ _ _ _ HS).
  - destruct (Set_success _ _ _ _ HS) as (s & v' & _ & _ & Hsch & _).
    exact Hsch.
Qed.

(** Under a known schema every [d.Set] of a run is decided: the schemas
    along the run are the initial one, and a rejected write of a declared
    key with a value of its type is absurd. *)
Ltac schemas_along :=
  repeat match goal with
  | Hd : schema_ ?d = ?S, Hs : Set_ ?d _ _ = (_, ?d') |- _ =>
      lazymatch goal with
      | _ : schema_ d' = _ |- _ => fail
      | _ => assert (schema_ d' = S)
               by (rewrite (Set_schema _ _ _ _ _ Hs); exact Hd)
      end
  end.

Lemma Set_not_rejected (d d' : ResourceData) (key : string) (v v' : Value)
    (e : error) (S : gmap string Schema) (s : Schema) :
  Set_ d key v = (Some e, d') -> schema_ d = S -> S !! key = Some s ->
  encode (Type_ s) v = Some v' -> False.
Proof.
  intros HS <- Hs He. unfold Set_ in HS. rewrite Hs, He in HS. discriminate.
Qed.

Ltac no_rejection :=
  match goal with
  | Hd : schema_ ?d = _, Hs : Set_ ?d _ _ = (Some _, _) |- _ =>
      exfalso; eapply (Set_not_rejected _ _ _ _ _ _ _ _ Hs Hd); reflexivity
  end.

(** With the schema of the VHD resource, a read whose lookup succeeds
    returns no diagnostics. *)
Lemma vhd_read_returns c r vhd w' :
  schema_ (data r) = Schema_ resourceHyperVVhd ->
  GetVhd c (Id (data r)) (world r) = ((vhd, None), w') ->
  exists r', handle (resourceHyperVVhdRead c) r = (Returns [], r').
Proof.
  intros Hsch Hget. unfold Id in Hget.
  destruct (handle (resourceHyperVVhdRead c) r) as [out r'] eqn:Hrun.
  run_with Hrun ltac:(fun H => rewrite Hget in H).
  all: schemas_along; try no_rejection.
  all: eexists; reflexivity.
Qed.

(** With the schema of the DVD resource and a string for ["ip"], a read
    whose lookup succeeds returns no diagnostics. *)
Lemma dvd_read_returns c r ip dvd w' :
  schema_ (data r) = Schema_ resourceHyperVDvd ->
  Get (data r) "ip" = VString ip ->
  GetDvd c (Id (data r)) ip (world r) = ((dvd, None), w') ->
  exists r', handle (resourceHyperVDvdRead c) r = (Returns [], r').
Proof.
  intros Hsch Hip Hget. unfold Id in Hget.
  destruct (handle (resourceHyperVDvdRead c) r) as [out r'] eqn:Hrun.
  run_with Hrun ltac:(fun H => first [rewrite Hip in H | rewrite Hget in H]).
  all: schemas_along; try no_rejection.
  all: eexists; reflexivity.
Qed.

(** C2.  A VHD read and a DVD resource read that return no diagnostics
    have set ["exists"] to [true] exactly when the path of the returned
    descriptor is not empty.  In particular, with the resource's own
    schema, a lookup that succeeds with an empty path makes the read
    return no diagnostics with ["exists"] set to [false]. *)
Theorem resource_read_exists c r :
  (forall r',
     handle (resourceHyperVVhdRead c) r = (Returns [], r') ->
     exists vhd,
       GetVhd c (Id (data r)) (world r) = ((vhd, None), world r')
       /\ (exists b, Get (data r') "exists" = VBool b)
       /\ (Get (data r') "exists" = VBool true <-> VhdPath vhd <> ""))
  /\ (forall r',
        handle (resourceHyperVDvdRead c) r = (Returns [], r') ->
        exists ip dvd,
          GetDvd c (Id (data r)) ip (world r) = ((dvd, None), world r')
          /\ (exists b, Get (data r') "exists" = VBool b)
          /\ (Get (data r') "exists" = VBool true <-> Path dvd <> ""))
  /\ (forall vhd w',
        schema_ (data r) = Schema_ resourceHyperVVhd ->
        GetVhd c (Id (data r)) (world r) = ((vhd, None), w') ->
        VhdPath vhd = "" ->
        exists r',
          handle (resourceHyperVVhdRead c) r = (Returns [], r')
          /\ Get (data r') "exists" = VBool false)
  /\ (forall ip dvd w',
        schema_ (data r) = Schema_ resourceHyperVDvd ->
        Get (data r) "ip" = VString ip ->
        GetDvd c (Id (data r)) ip (world r) = ((dvd, None), w') ->
        Path dvd = "" ->
        exists r',
          handle (resourceHyperVDvdRead c) r = (Returns [], r')
          /\ Get (data r') "exists" = VBool false).
Proof.
  assert (Hiff : forall p : string,
            VBool (negb (String.eqb p "")) = VBool true <-> p <> "").
  { intros p. destruct (String.eqb_spec p ""); cbn; split;
      congruence. }
  repeat split.
  - intros r' Hrun.
    destruct (vhd_read_success c r r' Hrun) as (vhd & Hg & _ & _ & He & _).
    exists vhd. rewrite He. split; [exact Hg|]. split; [eauto | apply Hiff].
  - intros r' Hrun.
    destruct (dvd_read_success c r r' Hrun) as (ip & dvd & _ & Hg & _ & _ & He).
    exists ip, dvd. rewrite He. split; [exact Hg|]. split; [eauto | apply Hiff].
  - intros vhd w' Hsch Hget Hp.
    destruct (vhd_read_returns c r vhd w' Hsch Hget) as (r' & Hrun).
    exists r'. split; [exact Hrun|].
    destruct (vhd_read_success c r r' Hrun) as (vhd' & Hg & _ & _ & He & _).
    rewrite Hget in Hg. injection Hg as <- _. rewrite He, Hp. reflexivity.
  - intros ip dvd w' Hsch Hip Hget Hp.
    destruct (dvd_read_returns c r ip dvd w' Hsch Hip Hget) as (r' & Hrun).
    exists r'. split; [exact Hrun|].
    destruct (dvd_read_success c r r' Hrun)
      as (ip' & dvd' & Hip' & Hg & _ & _ & He).
    rewrite Hip in Hip'. injection Hip' as <-.
    rewrite Hget in Hg. injection Hg as <- _. rewrite He, Hp. reflexivity.
Qed.

(** C10.  A VHD read that returns no diagnostics has stored ["path"],
    ["exists"] and ["vhd_type"]; for a differencing disk it has then
    stored ["parent_path"] and nothing else, so the four size attributes
    read as before; for any other disk it has then stored the four size
    attributes and nothing else, so ["parent_path"] reads as before. *)
Theorem vhd_read_geometry c r r' :
  handle (resourceHyperVVhdRead c) r = (Returns [], r') ->
  exists vhd,
    GetVhd c (Id (data r)) (world r) = ((vhd, None), world r')
    /\ Get (data r') "path" = VString (VhdPath vhd)
    /\ Get (data r') "exists" = VBool (negb (String.eqb (VhdPath vhd) ""))
    /\ Get (data r') "vhd_type" = VString (VhdType_name (VhdType_ vhd))
    /\ (VhdType_ vhd = VhdType_Differencing ->
          since r r'
          = [ CallGetVhd (Id (data r)) vhd None;
              DataSet "path" (VString (VhdPath vhd)) None;
              DataSet "exists" (VBool (negb (String.eqb (VhdPath vhd) ""))) None;
              DataSet "vhd_type" (VString (VhdType_name (VhdType_ vhd))) None;
              DataSet "parent_path" (VString (ParentPath vhd)) None ]
          /\ Get (data r') "parent_path" = VString (ParentPath vhd)
          /\ Get (data r') "size" = Get (data r) "size"
          /\ Get (data r') "block_size" = Get (data r) "block_size"
          /\ Get (data r') "logical_sector_size"
             = Get (data r) "logical_sector_size"
          /\ Get (data r') "physical_sector_size"
             = Get (data r) "physical_sector_size")
    /\ (VhdType_ vhd <> VhdType_Differencing ->
          since r r'
          = [ CallGetVhd (Id (data r)) vhd None;
              DataSet "path" (VString (VhdPath vhd)) None;
              DataSet "exists" (VBool (negb (String.eqb (VhdPath vhd) ""))) None;
              DataSet "vhd_type" (VString (VhdType_name (VhdType_ vhd))) None;
              DataSet "size" (VUint64 (Size vhd)) None;
              DataSet "block_size" (VUint32 (BlockSize vhd)) None;
              DataSet "logical_sector_size" (VUint32 (LogicalSectorSize vhd)) None;
              DataSet "physical_sector_size" (VUint32 (PhysicalSectorSize vhd)) None ]
          /\ Get (data r') "size" = VInt (int_of_uint64 (Size vhd))
          /\ Get (data r') "block_size" = VInt (BlockSize vhd)
          /\ Get (data r') "logical_sector_size" = VInt (LogicalSectorSize vhd)
          /\ Get (data r') "physical_sector_size" = VInt (PhysicalSectorSize vhd)
          /\ Get (data r') "parent_path" = Get (data r) "parent_path").
Proof.
  intros Hrun.
  destruct (vhd_read_success c r r' Hrun)
    as (vhd & Hg & Hj & Hp & He & Ht & Hdiff & Hother).
  exists vhd. repeat (split; [assumption|]).
  unfold vhd_read_writes in Hj. split; intros Hd.
  - rewrite bool_decide_eq_true_2 in Hj by exact Hd.
    split; [exact Hj | exact (Hdiff Hd)].
  - rewrite bool_decide_eq_false_2 in Hj by exact Hd.
    split; [exact Hj | exact (Hother Hd)].
Qed.


(** *** Client errors *)

(** One leaf of an operation: the journal it added is [evs]. *)
Lemma error_is_last evs pre ev post e :
  quiet_init evs = true ->
  evs = (pre ++ ev :: post)%list -> call_error ev = Some e ->
  last evs = Some ev /\ post = []
  /\ Forall (fun ev' => call_error ev' = None) pre.
Proof.
  intros Hq Heq He.
  destruct (quiet_init_split evs Hq pre ev post e Heq He) as [-> Hpre].
  subst evs. rewrite last_snoc. auto.
Qed.

Ltac tidy_journal_in H :=
  unfold since in H; cbn [journal] in H; rewrite <- ?app_assoc in H;
  cbn [app] in H; rewrite ?drop_app_length, ?drop_all in H.

Ltac close_leaf Hsince He :=
  let Hlast := fresh "Hlast" in
  let Hpost := fresh "Hpost" in
  let Hpre := fresh "Hpre" in
  tidy_journal_in Hsince;
  first
    [ lazymatch type of Hsince with
      | ?evs = _ =>
          destruct (error_is_last evs _ _ _ _ (eq_refl true) Hsince He)
            as (Hlast & Hpost & Hpre)
      end;
      cbn in Hlast; injection Hlast as <-; cbn in He;
      first [ discriminate He
            | injection He as <-; split; [reflexivity | split; assumption] ]
    | exfalso; revert Hsince; clear;
      match goal with
      | |- [] = (?a ++ _ :: _)%list -> _ => destruct a; discriminate
      end ].

(** C6, as the handlers have it.  In each of the eight operations, a
    client call that comes back with an error is the last entry of the
    operation's journal: nothing is called or written after it, the call
    is not made again, and no call before it has failed.  The operation
    returns one error diagnostic: [diag.FromErr] of that very error,
    except that VHD create reports a failed [VhdExists] as a new error
    whose text is ["checking for existing <path>: "] followed by the
    rendering of the original. *)
Theorem client_error_ends_operation c op r out r' pre ev post e :
  handle (operation c op) r = (out, r') ->
  since r r' = (pre ++ ev :: post)%list ->
  call_error ev = Some e ->
  out = Returns (FromErr (Some (reported op ev e)))
  /\ post = []
  /\ Forall (fun ev' => call_error ev' = None) pre.
Proof.
  intros Hrun Hsince He.
  destruct op; cbn [operation] in Hrun.
  - run_all Hrun; close_leaf Hsince He.
  - run_all Hrun; close_leaf Hsince He.
  - run_all Hrun; close_leaf Hsince He.
  - run_all Hrun; close_leaf Hsince He.
  - run_all Hrun; close_leaf Hsince He.
  - run_all Hrun; close_leaf Hsince He.
  - run_all Hrun; close_leaf Hsince He.
  - run_all Hrun; close_leaf Hsince He.
Qed.


(** *** The resize follow-up *)

Lemma resize_guard_spec (n : Z) (parent : string) :
  resize_guard n parent = true <-> 0 < uint64 n /\ parent = "".
Proof.
  unfold resize_guard. rewrite andb_true_iff, Z.ltb_lt, String.eqb_eq.
  reflexivity.
Qed.

Ltac fold_guard :=
  repeat match goal with
  | Hg : (0 <? uint64 ?n) && String.eqb ?p "" = _ |- _ =>
      change ((0 <? uint64 n) && String.eqb p "") with (resize_guard n p) in Hg
  end.

(** The resize follow-up of create: none without the guard, and one,
    after a [CreateOrUpdateVhd] that succeeded, with it. *)
Lemma create_resize c r out r' n parent :
  Get (data r) "size" = VInt n ->
  Get (data r) "parent_path" = VString parent ->
  handle (resourceHyperVVhdCreate c) r = (out, r') ->
  (existsb is_ResizeVhd (since r r') = true -> resize_guard n parent = true)
  /\ (existsb is_created (since r r') = true ->
      resize_guard n parent = true ->
      existsb is_ResizeVhd (since r r') = true)
  /\ (forall path size err,
        In (CallResizeVhd path size err) (since r r') -> size = uint64 n).
Proof.
  intros Hsize Hparent Hrun.
  run_with Hrun ltac:(fun H =>
    first [rewrite Hsize in H | rewrite Hparent in H]).
  all: fold_guard; tidy_journal; cbn [existsb is_ResizeVhd is_created orb In].
  all: repeat split; try congruence.
  all: intros; repeat match goal with
                      | Hin : _ \/ _ |- _ => destruct Hin as [Hin | Hin]
                      end; try contradiction; congruence.
Qed.

(** The resize follow-up of update: the guard and, besides, a disk that
    does not exist yet or a size that has changed. *)
Lemma update_resize c r out r' n parent ex :
  Get (data r) "size" = VInt n ->
  Get (data r) "parent_path" = VString parent ->
  Get (data r) "exists" = VBool ex ->
  handle (resourceHyperVVhdUpdate c) r = (out, r') ->
  (existsb is_ResizeVhd (since r r') = true ->
     resize_guard n parent = true
     /\ (negb ex || HasChange (data r) "size") = true)
  /\ ((exists ds, out = Returns ds) ->
      existsb is_create_failure (since r r') = false ->
      resize_guard n parent = true ->
      (negb ex || HasChange (data r) "size") = true ->
      existsb is_ResizeVhd (since r r') = true).
Proof.
  intros Hsize Hparent Hex Hrun.
  run_with Hrun ltac:(fun H =>
    first [rewrite Hsize in H | rewrite Hparent in H | rewrite Hex in H]).
  all: fold_guard; tidy_journal;
    cbn [existsb is_ResizeVhd is_create_failure orb].
  all: split; [intros; try discriminate; split; assumption|].
  all: intros [ds Hds] Hfail Hguard Hch; try reflexivity;
    try discriminate; congruence.
Qed.


(** With the schema of the VHD resource and well-typed values, a create
    whose path is set and whose existence check, if any, passes, does
    call [CreateOrUpdateVhd], with the path, the parent path and the size
    read from the attributes. *)
Lemma create_reaches_call c r path out r' :
  schema_ (data r) = Schema_ resourceHyperVVhd ->
  well_typed (data r) = true ->
  GetOk (data r) "path" = (VString path, true) ->
  (IsNewResource (data r) = true ->
     exists res w',
       VhdExists c path (world r) = ((res, None), w') /\ Exists res = false) ->
  handle (resourceHyperVVhdCreate c) r = (out, r') ->
  exists args err n,
    In (CallCreateOrUpdateVhd args err) (since r r')
    /\ a_path args = path
    /\ Get (data r) "parent_path" = VString (a_parentPath args)
    /\ Get (data r) "size" = VInt n /\ a_size args = uint64 n.
Proof.
  intros Hsch Hwt Hpath Hnew Hrun.
  assert (Hstr : forall key s, Schema_ resourceHyperVVhd !! key = Some s ->
                   Type_ s = TypeString -> exists v, Get (data r) key = VString v).
  { intros key s Hk Ht. apply (has_type_string (Type_ s)); [exact Ht|].
    apply well_typed_Get; [exact Hwt | now rewrite Hsch]. }
  assert (Hint : forall key s, Schema_ resourceHyperVVhd !! key = Some s ->
                   Type_ s = TypeInt -> exists v, Get (data r) key = VInt v).
  { intros key s Hk Ht. apply (has_type_int (Type_ s)); [exact Ht|].
    apply well_typed_Get; [exact Hwt | now rewrite Hsch]. }
  destruct (Hstr "source" _ eq_refl eq_refl) as [source Hsource].
  destruct (Hstr "source_vm" _ eq_refl eq_refl) as [sourceVm HsourceVm].
  destruct (Hint "source_disk" _ eq_refl eq_refl) as [sourceDisk HsourceDisk].
  destruct (Hstr "vhd_type" _ eq_refl eq_refl) as [vhdType HvhdType].
  destruct (Hstr "parent_path" _ eq_refl eq_refl) as [parentPath HparentPath].
  destruct (Hint "size" _ eq_refl eq_refl) as [size Hsize].
  destruct (Hint "block_size" _ eq_refl eq_refl) as [blockSize HblockSize].
  destruct (Hint "logical_sector_size" _ eq_refl eq_refl) as [lss Hlss].
  destruct (Hint "physical_sector_size" _ eq_refl eq_refl) as [pss Hpss].
  clear Hstr Hint Hwt.
  unfold IsNewResource in Hnew.
  destruct (isNew (data r)) eqn:HisNew.
  - destruct (Hnew eq_refl) as (res & w1 & Hexists & Hres).
    destruct res as [present]; cbn in Hres; subst present.
    run_with Hrun ltac:(fun H =>
      first [ rewrite Hpath in H | rewrite HisNew in H | rewrite Hexists in H
            | rewrite Hsource in H | rewrite HsourceVm in H
            | rewrite HsourceDisk in H | rewrite HvhdType in H
            | rewrite HparentPath in H | rewrite Hsize in H
            | rewrite HblockSize in H | rewrite Hlss in H | rewrite Hpss in H ]).
    all: tidy_journal; do 3 eexists;
      (split; [cbn [In]; right; left; reflexivity
              | cbn; repeat split; first [eassumption | reflexivity]]).
  - run_with Hrun ltac:(fun H =>
      first [ rewrite Hpath in H | rewrite HisNew in H
            | rewrite Hsource in H | rewrite HsourceVm in H
            | rewrite HsourceDisk in H | rewrite HvhdType in H
            | rewrite HparentPath in H | rewrite Hsize in H
            | rewrite HblockSize in H | rewrite Hlss in H | rewrite Hpss in H ]).
    all: tidy_journal; do 3 eexists;
      (split; [cbn [In]; left; reflexivity
              | cbn; repeat split; first [eassumption | reflexivity]]).
Qed.

(** C4, as the handlers have it.  In create, [ResizeVhd] is never called
    unless size > 0 and the parent path is empty, and once
    [CreateOrUpdateVhd] has succeeded it is called exactly then.  In
    update, [ResizeVhd] is never called unless, besides, the disk is
    recorded as not existing or the size has changed, and when update
    returns and no [CreateOrUpdateVhd] has failed it is called exactly
    then.  In particular a create with size 0 and a parent path, whose
    path is set and whose existence check passes, calls
    [CreateOrUpdateVhd] with that parent path and size 0 and does not
    call [ResizeVhd]. *)
Theorem resize_follow_up c r n parent :
  Get (data r) "size" = VInt n ->
  Get (data r) "parent_path" = VString parent ->
  (forall out r',
     handle (resourceHyperVVhdCreate c) r = (out, r') ->
     (existsb is_ResizeVhd (since r r') = true -> 0 < uint64 n /\ parent = "")
     /\ (existsb is_created (since r r') = true ->
         (existsb is_ResizeVhd (since r r') = true <-> 0 < uint64 n /\ parent = "")))
  /\ (forall out r' ex,
        Get (data r) "exists" = VBool ex ->
        handle (resourceHyperVVhdUpdate c) r = (out, r') ->
        (existsb is_ResizeVhd (since r r') = true ->
           (0 < uint64 n /\ parent = "")
           /\ (ex = false \/ HasChange (data r) "size" = true))
        /\ ((exists ds, out = Returns ds) ->
            existsb is_create_failure (since r r') = false ->
            (existsb is_ResizeVhd (since r r') = true <->
               (0 < uint64 n /\ parent = "")
               /\ (ex = false \/ HasChange (data r) "size" = true))))
  /\ (forall path out r',
        uint64 n = 0 -> parent <> "" ->
        schema_ (data r) = Schema_ resourceHyperVVhd ->
        well_typed (data r) = true ->
        GetOk (data r) "path" = (VString path, true) ->
        (IsNewResource (data r) = true ->
           exists res w',
             VhdExists c path (world r) = ((res, None), w')
             /\ Exists res = false) ->
        handle (resourceHyperVVhdCreate c) r = (out, r') ->
        existsb is_ResizeVhd (since r r') = false
        /\ exists args err,
             In (CallCreateOrUpdateVhd args err) (since r r')
             /\ a_path args = path /\ a_parentPath args = parent
             /\ a_size args = 0).
Proof.
  intros Hsize Hparent.
  assert (Hor : forall ex : bool,
            (negb ex || HasChange (data r) "size") = true <->
            ex = false \/ HasChange (data r) "size" = true).
  { intros ex. rewrite orb_true_iff, negb_true_iff. reflexivity. }
  split; [|split].
  - intros out r' Hrun.
    destruct (create_resize c r out r' n parent Hsize Hparent Hrun)
      as (Honly & Hif & _).
    rewrite <- resize_guard_spec. split; [exact Honly|].
    intros Hcreated. split; [exact Honly | exact (Hif Hcreated)].
  - intros out r' ex Hex Hrun.
    destruct (update_resize c r out r' n parent ex Hsize Hparent Hex Hrun)
      as (Honly & Hif).
    rewrite <- resize_guard_spec, <- Hor. split; [exact Honly|].
    intros Hret Hnofail. split; [exact Honly|].
    intros [Hg Hc]. exact (Hif Hret Hnofail Hg Hc).
  - intros path out r' Hzero Hnonempty Hsch Hwt Hpath Hnew Hrun.
    split.
    + destruct (create_resize c r out r' n parent Hsize Hparent Hrun)
        as (Honly & _).
      destruct (existsb is_ResizeVhd (since r r')); [|reflexivity].
      apply resize_guard_spec in Honly; [|reflexivity]. lia.
    + destruct (create_reaches_call c r path out r' Hsch Hwt Hpath Hnew Hrun)
        as (args & err & n' & Hin & Hp & Hpp & Hn & Hs).
      exists args, err. rewrite Hparent in Hpp. injection Hpp as Hpp.
      rewrite Hsize in Hn. injection Hn as <-.
      repeat split; congruence.
Qed.


(** *** The calls of the reads, of the deletes and of the DVD create *)


(** The two deletes and the DVD create are one client call each: the
    deletes call [DeleteVhd] or [DeleteDvd] of the id, return what
    [diag.FromErr] makes of the answer and leave the [ResourceData]
    alone; the DVD create calls [CreateDvd] of the [path] and [ip]
    attributes, and sets the id to the path if and only if the call
    succeeded. *)
Theorem single_call_handlers c op r out r' :
  handle (operation c op) r = (out, r') ->
  match op with
  | VhdDelete =>
      out = Returns (FromErr (fst (DeleteVhd c (Id (data r)) (world r))))
      /\ since r r'
         = [CallDeleteVhd (Id (data r)) (fst (DeleteVhd c (Id (data r)) (world r)))]
      /\ data r' = data r
  | DvdDelete =>
      out = Returns (FromErr (fst (DeleteDvd c (Id (data r)) (world r))))
      /\ since r r'
         = [CallDeleteDvd (Id (data r)) (fst (DeleteDvd c (Id (data r)) (world r)))]
      /\ data r' = data r
  | DvdCreate =>
      (out = Panics /\ since r r' = [] /\ data r' = data r)
      \/ exists path ip,
           Get (data r) "path" = VString path
           /\ Get (data r) "ip" = VString ip
           /\ out = Returns (FromErr (fst (CreateDvd c path ip (world r))))
           /\ since r r'
              = [CallCreateDvd path ip (fst (CreateDvd c path ip (world r)))]
           /\ data r'
              = match fst (CreateDvd c path ip (world r)) with
                | Some _ => data r
                | None => SetId (data r) path
                end
  | _ => True
  end.
Proof.
  intros Hrun. destruct op; try exact I; cbn [operation] in Hrun.
  - run_all Hrun; unfold Id.
    all: match goal with Hx : DeleteVhd _ _ _ = _ |- _ => rewrite Hx end;
      tidy_journal; auto.
  - run_all Hrun.
    all: tidy_journal; auto.
    all: right; do 2 eexists; split; [reflexivity|]; split; [reflexivity|].
    all: match goal with Hx : CreateDvd _ _ _ _ = _ |- _ => rewrite Hx end; auto.
  - run_all Hrun; unfold Id.
    all: match goal with Hx : DeleteDvd _ _ _ = _ |- _ => rewrite Hx end;
      tidy_journal; auto.
Qed.

(** *** Type assertions *)

Lemma typed_string r key s :
  well_typed (data r) = true -> schema_ (data r) !! key = Some s ->
  Type_ s = TypeString -> exists v, Get (data r) key = VString v.
Proof.
  intros Hwt Hk Ht. apply (has_type_string (Type_ s)); [exact Ht|].
  now apply well_typed_Get.
Qed.

Lemma typed_int r key s :
  well_typed (data r) = true -> schema_ (data r) !! key = Some s ->
  Type_ s = TypeInt -> exists v, Get (data r) key = VInt v.
Proof.
  intros Hwt Hk Ht. apply (has_type_int (Type_ s)); [exact Ht|].
  now apply well_typed_Get.
Qed.

Lemma typed_bool r key s :
  well_typed (data r) = true -> schema_ (data r) !! key = Some s ->
  Type_ s = TypeBool -> exists v, Get (data r) key = VBool v.
Proof.
  intros Hwt Hk Ht. apply (has_type_bool (Type_ s)); [exact Ht|].
  now apply well_typed_Get.
Qed.

Lemma GetOk_Get r key : exists ok, GetOk (data r) key = (Get (data r) key, ok).
Proof. unfold Get. destruct (GetOk (data r) key) as [v ok]. now exists ok. Qed.

(** The typed attributes of a well-typed VHD resource. *)
Lemma vhd_attributes r :
  schema_ (data r) = Schema_ resourceHyperVVhd ->
  well_typed (data r) = true ->
  (exists v, Get (data r) "path" = VString v)
  /\ (exists v, Get (data r) "source" = VString v)
  /\ (exists v, Get (data r) "source_vm" = VString v)
  /\ (exists v, Get (data r) "source_disk" = VInt v)
  /\ (exists v, Get (data r) "vhd_type" = VString v)
  /\ (exists v, Get (data r) "parent_path" = VString v)
  /\ (exists v, Get (data r) "size" = VInt v)
  /\ (exists v, Get (data r) "block_size" = VInt v)
  /\ (exists v, Get (data r) "logical_sector_size" = VInt v)
  /\ (exists v, Get (data r) "physical_sector_size" = VInt v)
  /\ (exists v, Get (data r) "exists" = VBool v).
Proof.
  intros Hsch Hwt.
  repeat split;
    first [ eapply typed_string | eapply typed_int | eapply typed_bool ];
    try exact Hwt; try (rewrite Hsch; reflexivity); reflexivity.
Qed.

Lemma dvd_attributes r :
  schema_ (data r) = Schema_ resourceHyperVDvd ->
  well_typed (data r) = true ->
  (exists v, Get (data r) "path" = VString v)
  /\ (exists v, Get (data r) "ip" = VString v).
Proof.
  intros Hsch Hwt.
  split; eapply typed_string;
    try exact Hwt; try (rewrite Hsch; reflexivity); reflexivity.
Qed.

(** On a [ResourceData] of its own resource's schema whose values have
    the declared types, as the SDK hands it over, no handler panics:
    every type assertion on [d.Get] and [d.GetOk] is on an attribute the
    schema declares with the asserted type. *)
Theorem handlers_do_not_panic c op r :
  schema_ (data r) = Schema_ (resource_of op) ->
  well_typed (data r) = true ->
  fst (handle (operation c op) r) <> Panics.
Proof.
  intros Hsch Hwt.
  destruct (handle (operation c op) r) as [out r'] eqn:Hrun.
  destruct op; cbn [resource_of operation] in *.
  1-4: destruct (vhd_attributes r Hsch Hwt)
         as ([path Hpath] & [source Hsource] & [sourceVm HsourceVm]
             & [sourceDisk HsourceDisk] & [vhdType HvhdType]
             & [parentPath HparentPath] & [size Hsize]
             & [blockSize HblockSize] & [lss Hlss] & [pss Hpss] & [ex Hex]).
  5-7: destruct (dvd_attributes r Hsch Hwt) as ([path Hpath] & [ip Hip]).
  8: assert (exists v, Get (data r) "path" = VString v) as [path Hpath]
       by (eapply typed_string; [exact Hwt | rewrite Hsch; reflexivity | reflexivity]).
  all: destruct (GetOk_Get r "path") as [ok Hok]; rewrite Hpath in Hok.
  all: clear Hwt Hsch.
  all: run_with Hrun ltac:(fun H =>
         first [ rewrite Hok in H | rewrite Hpath in H | rewrite Hsource in H
               | rewrite HsourceVm in H | rewrite HsourceDisk in H
               | rewrite HvhdType in H | rewrite HparentPath in H
               | rewrite Hsize in H | rewrite HblockSize in H
               | rewrite Hlss in H | rewrite Hpss in H | rewrite Hex in H
               | rewrite Hip in H ]).
  all: cbn; discriminate.
Qed.

(** *** What the resource handlers write *)

Ltac schemas_through :=
  repeat match goal with
  | Hd : schema_ ?d = ?S, Hs : Set_ (SetId ?d ?v) _ _ = _ |- _ =>
      lazymatch goal with
      | _ : schema_ (SetId d v) = _ |- _ => fail
      | _ => assert (schema_ (SetId d v) = S) by exact Hd
      end
  end; schemas_along.

(** The handlers of the two resources write only attributes their
    schema declares, with values of the declared type: [d.Set] never
    returns an error to them. *)
Theorem resource_writes_accepted c op r out r' :
  op <> DvdDataSourceRead ->
  schema_ (data r) = Schema_ (resource_of op) ->
  handle (operation c op) r = (out, r') ->
  forall key v err, In (DataSet key v err) (since r r') -> err = None.
Proof.
  intros Hop Hsch Hrun.
  destruct op; cbn [resource_of operation] in *; try congruence; clear Hop.
  all: run_all Hrun; schemas_through; try no_rejection.
  all: tidy_journal; cbn [In]; intros key0 val0 err0 Hin.
  all: repeat match goal with
              | Hx : _ \/ _ |- _ => destruct Hx as [Hx | Hx]
              end; try contradiction; congruence.
Qed.

(** A resource read that does not panic returns what [diag.FromErr]
    makes of the lookup's error, so it fails only when the lookup
    does; and when the lookup fails, the lookup is the whole journal and
    the [ResourceData] is as it was. *)
Theorem reads_fail_only_on_lookup c op r out r' :
  schema_ (data r) = Schema_ (resource_of op) ->
  handle (operation c op) r = (out, r') ->
  match op with
  | VhdRead =>
      exists vhd err,
        GetVhd c (Id (data r)) (world r) = ((vhd, err), world r')
        /\ out = Returns (FromErr err)
        /\ (err <> None ->
            data r' = data r /\ since r r' = [CallGetVhd (Id (data r)) vhd err])
  | DvdRead =>
      out = Panics
      \/ exists ip dvd err,
           GetDvd c (Id (data r)) ip (world r) = ((dvd, err), world r')
           /\ out = Returns (FromErr err)
           /\ (err <> None ->
               data r' = data r
               /\ since r r' = [CallGetDvd (Id (data r)) ip dvd err])
  | _ => True
  end.
Proof.
  intros Hsch Hrun. destruct op; try exact I; cbn [operation resource_of] in *.
  - run_all Hrun; schemas_along; try no_rejection.
    all: do 2 eexists; split; [eassumption|]; split; [reflexivity|].
    all: intros Hne; first [congruence | split; [reflexivity | tidy_journal; reflexivity]].
  - run_all Hrun; schemas_along; try no_rejection; auto.
    all: right; do 3 eexists; split; [eassumption|]; split; [reflexivity|].
    all: intros Hne; first [congruence | split; [reflexivity | tidy_journal; reflexivity]].
Qed.

(** *** A create that succeeds *)

Lemma Set_id (d d' : ResourceData) (key : string) (v : Value)
    (err : option error) :
  Set_ d key v = (err, d') -> Id d' = Id d.
Proof.
  intros HS. destruct err as [e|].
  - now rewrite (Set_failure _ _ _ _ _ HS).
  - destruct (Set_success _ _ _ _ HS) as (s & v' & _ & _ & _ & _ & _ & _ & Hid & _).
    exact Hid.
Qed.

Ltac id_back :=
  repeat match goal with
  | Hs : Set_ ?d ?k ?v = (?e, ?d') |- context [Id ?d'] =>
      rewrite (Set_id d d' k v e Hs)
  end.

(** A VHD create that returns no diagnostics had a path configured,
    leaves the id set to that path, and made these client calls, in this
    order and all without error: the existence check, answered no, if
    the resource is new; [CreateOrUpdateVhd] for the path; [ResizeVhd] of
    the path to the size if the size is positive and the parent path
    empty; [GetVhd] of the path.  [exists] then tells whether that lookup
    found the disk. *)
Theorem create_success c r r' :
  handle (resourceHyperVVhdCreate c) r = (Returns [], r') ->
  exists path args vhd,
    GetOk (data r) "path" = (VString path, true)
    /\ Id (data r') = path
    /\ a_path args = path
    /\ calls (since r r')
       = ((if IsNewResource (data r)
           then [CallVhdExists path {| Exists := false |} None] else [])
          ++ [CallCreateOrUpdateVhd args None]
          ++ (if (0 <? a_size args) && String.eqb (a_parentPath args) ""
              then [CallResizeVhd path (a_size args) None] else [])
          ++ [CallGetVhd path vhd None])%list
    /\ Get (data r') "exists" = VBool (negb (String.eqb (VhdPath vhd) "")).
Proof.
  intros Hrun. run_all Hrun.
  all: repeat match goal with
              | v : VhdExistsResult |- _ => destruct v as [present]
              end; cbn [Exists] in *; subst.
  all: match goal with
       | Hp : GetOk _ "path" = (VString ?p, true),
         Hc : CreateOrUpdateVhd _ ?a _ = _,
         Hg : GetVhd _ _ _ = (?v, None, _) |- _ => exists p, a, v
       end; split; [reflexivity|].
  all: cbn [data]; unfold IsNewResource.
  all: repeat match goal with
              | Hb : isNew _ = _ |- _ => rewrite Hb; clear Hb
              | Hb : String.eqb (VhdPath _) _ = _ |- _ => rewrite Hb; clear Hb
              end.
  all: tidy_journal; cbn [calls List.filter is_call app a_size a_parentPath a_path].
  all: repeat match goal with
              | Hb : (0 <? _) && String.eqb _ "" = _ |- _ => rewrite Hb; clear Hb
              end; cbn [app negb].
  all: split; [id_back; reflexivity|].
  all: split; [reflexivity|].
  all: split; [reflexivity|].
  all: read_back; reflexivity.
Qed.

(** *** What update calls *)

(** A VHD update calls only [CreateOrUpdateVhd], [ResizeVhd] and
    [GetVhd], each for the id: it never checks for existence and never
    deletes.  It calls [CreateOrUpdateVhd] only if [exists] is false or
    one of [path], [source], [source_vm], [source_disk], [parent_path]
    has changed, and whenever that holds and the handler returns. *)
Theorem update_recreates c r out r' ex :
  Get (data r) "exists" = VBool ex ->
  handle (resourceHyperVVhdUpdate c) r = (out, r') ->
  (forall ev, In ev (calls (since r r')) ->
     is_update_call ev = true /\ call_path ev = Some (Id (data r)))
  /\ (existsb is_CreateOrUpdateVhd (since r r') = true ->
      recreate_guard (data r) ex = true)
  /\ ((exists ds, out = Returns ds) ->
      recreate_guard (data r) ex = true ->
      existsb is_CreateOrUpdateVhd (since r r') = true).
Proof.
  intros Hex Hrun.
  run_with Hrun ltac:(fun H => rewrite Hex in H).
  all: unfold recreate_guard.
  all: tidy_journal;
    cbn [calls List.filter is_call existsb is_CreateOrUpdateVhd orb In].
  all: split; [|split].
  all: try (intros ev Hin;
            repeat match goal with
                   | Hx : _ \/ _ |- _ => destruct Hx as [Hx | Hx]
                   end; try contradiction; subst ev; split; reflexivity).
  all: try (intros; first [assumption | discriminate | reflexivity]).
  all: try (intros [ds Hds] Hg; first [discriminate | congruence]).
Qed.

(** *** Sizes across the integer conversions *)

(** [uint64(d.Get("size").(int))] of a negative size is the size plus
    2^64: a create with a negative size and no parent path whose
    [CreateOrUpdateVhd] succeeded goes on to call [ResizeVhd], with that
    number. *)
Theorem create_negative_size c r out r' n :
  Get (data r) "size" = VInt n ->
  Get (data r) "parent_path" = VString "" ->
  - 2 ^ 63 <= n < 0 ->
  handle (resourceHyperVVhdCreate c) r = (out, r') ->
  existsb is_created (since r r') = true ->
  existsb is_ResizeVhd (since r r') = true
  /\ forall path size err,
       In (CallResizeVhd path size err) (since r r') -> size = n + 2 ^ 64.
Proof.
  intros Hsize Hparent Hn Hrun Hcreated.
  destruct (create_resize c r out r' n "" Hsize Hparent Hrun)
    as (_ & Hif & Hargs).
  split.
  - apply Hif; [exact Hcreated|]. apply resize_guard_spec.
    rewrite uint64_negative by exact Hn. split; [lia | reflexivity].
  - intros path size err Hin. rewrite (Hargs path size err Hin).
    apply uint64_negative, Hn.
Qed.

(** A VHD read that returns no diagnostics for a disk that is not
    differencing stores the reported size as it is when it is below
    2^63 and less 2^64 when it is not; a size that [uint64] made of an
    [int] is stored as that [int]. *)
Theorem read_stores_size c r r' :
  handle (resourceHyperVVhdRead c) r = (Returns [], r') ->
  exists vhd,
    GetVhd c (Id (data r)) (world r) = ((vhd, None), world r')
    /\ (VhdType_ vhd <> VhdType_Differencing ->
        (0 <= Size vhd < 2 ^ 63 -> Get (data r') "size" = VInt (Size vhd))
        /\ (2 ^ 63 <= Size vhd < 2 ^ 64 ->
            Get (data r') "size" = VInt (Size vhd - 2 ^ 64))
        /\ (forall n, - 2 ^ 63 <= n < 2 ^ 63 -> Size vhd = uint64 n ->
            Get (data r') "size" = VInt n)).
Proof.
  intros Hrun.
  destruct (vhd_read_success c r r' Hrun)
    as (vhd & Hg & _ & _ & _ & _ & _ & Hother).
  exists vhd. split; [exact Hg|]. intros Hd.
  destruct (Hother Hd) as (Hsize & _). rewrite Hsize.
  repeat split.
  - intros Hs. now rewrite int_of_uint64_small.
  - intros Hs. now rewrite int_of_uint64_large.
  - intros n Hn ->. now rewrite int_of_uint64_uint64.
Qed.

(** *** Reading twice *)

Lemma Set_settles (d d1 : ResourceData) (key : string) (v : Value) :
  Set_ d key v = (None, d1) -> Set_ d1 key v = (None, d1).
Proof.
  intros HS.
  destruct (Set_success _ _ _ _ HS)
    as (s & v' & Hs & He & Hsch & Hw & Hp & Hst & Hid & Hnew).
  destruct d1 as [sc st pl wr i nw]; cbn in *. subst.
  unfold Set_; cbn. rewrite Hs, He, insert_insert_eq. reflexivity.
Qed.

Lemma Set_settled_other (d d2 : ResourceData) (key key2 : string) (v v2 : Value) :
  Set_ d key v = (None, d) -> Set_ d key2 v2 = (None, d2) -> key2 <> key ->
  Set_ d2 key v = (None, d2).
Proof.
  intros Hfix HS Hne.
  destruct (Set_success _ _ _ _ HS)
    as (s2 & v2' & Hs2 & He2 & Hsch & Hw & Hp & Hst & Hid & Hnew).
  destruct (Set_success _ _ _ _ Hfix)
    as (s & v' & Hs & He & _ & Hwfix & _).
  destruct d2 as [sc st pl wr i nw]; cbn in *. subst.
  unfold Set_; cbn. rewrite Hs, He, insert_insert_ne by congruence.
  rewrite <- Hwfix. reflexivity.
Qed.

Ltac settle :=
  repeat match goal with
  | Hs : Set_ ?d ?k ?v = (None, ?d1) |- _ =>
      lazymatch goal with
      | _ : Set_ d1 k v = (None, d1) |- _ => fail
      | _ => pose proof (Set_settles d d1 k v Hs)
      end
  | Hfix : Set_ ?d ?k ?v = (None, ?d), Hs : Set_ ?d ?k2 ?v2 = (None, ?d2) |- _ =>
      lazymatch goal with
      | _ : Set_ d2 k v = (None, d2) |- _ => fail
      | _ => assert (Set_ d2 k v = (None, d2))
               by (apply (Set_settled_other d d2 k k2 v v2 Hfix Hs); discriminate)
      end
  end.

(** A VHD read right after one that returned no diagnostics, with the
    host giving the same answer, returns no diagnostics either and
    leaves the [ResourceData] exactly as the first read left it. *)
Theorem vhd_read_idempotent c r r1 out r2 :
  handle (resourceHyperVVhdRead c) r = (Returns [], r1) ->
  fst (GetVhd c (Id (data r1)) (world r1)) = fst (GetVhd c (Id (data r)) (world r)) ->
  handle (resourceHyperVVhdRead c) r1 = (out, r2) ->
  out = Returns [] /\ data r2 = data r1.
Proof.
  intros Hrun1 Hsame Hrun2.
  run_all Hrun1.
  all: cbn [data world] in *; id_back; unfold Id in Hsame.
  all: match goal with
       | Hg : GetVhd _ _ _ = (_, None, _) |- _ => rewrite Hg in Hsame
       end; cbn [fst] in Hsame.
  all: destruct (GetVhd c _ _) as [[vhd2 err2] w2] eqn:Hget2 in Hsame;
    cbn [fst] in Hsame; injection Hsame as -> ->.
  all: settle.
  all: run_with Hrun2 ltac:(fun H =>
         match goal with
         | Hx : Set_ _ _ _ = _ |- _ => rewrite Hx in H
         | Hx : GetVhd _ _ _ = _ |- _ => rewrite Hx in H
         | Hx : String.eqb _ _ = _ |- _ => rewrite Hx in H
         | Hx : bool_decide _ = _ |- _ => rewrite Hx in H
         end).
  all: split; reflexivity.
Qed.


End HandlerFacts.

(** ** Strings *)

Section StringFacts.
Import gostd.

Lemma length_append (a b : string) :
  String.length (a +:+ b) = (String.length a + String.length b)%nat.
Proof. induction a as [|c a IH]; simpl; [reflexivity | now rewrite IH]. Qed.

Lemma substring_nothing (s : string) (n : nat) : String.substring n 0 s = "".
Proof.
  revert n. induction s as [|c s IH]; intros [|n]; simpl; auto.
Qed.

Lemma substring_all (s : string) : String.substring 0 (String.length s) s = s.
Proof. induction s as [|c s IH]; simpl; [reflexivity | now rewrite IH]. Qed.

Lemma substring_head (a b : string) :
  String.substring 0 (String.length a) (a +:+ b) = a.
Proof.
  induction a as [|c a IH]; simpl.
  - apply substring_nothing.
  - now rewrite IH.
Qed.

Lemma substring_tail (a b : string) :
  String.substring (String.length a) (String.length b) (a +:+ b) = b.
Proof.
  induction a as [|c a IH]; simpl; [apply substring_all | exact IH].
Qed.

Lemma substring_split (s : string) (j : nat) :
  (j <= String.length s)%nat ->
  s = String.substring 0 j s +:+ String.substring j (String.length s - j) s.
Proof.
  revert j. induction s as [|c s IH]; intros [|j] Hj; simpl in *.
  - reflexivity.
  - lia.
  - now rewrite substring_all.
  - rewrite (IH j) at 1 by lia. reflexivity.
Qed.

Lemma get_beyond (s : string) (n : nat) :
  (String.length s <= n)%nat -> String.get n s = None.
Proof.
  revert n. induction s as [|c s IH]; intros n Hn; simpl in *.
  - reflexivity.
  - destruct n as [|n]; [lia|]. apply IH. lia.
Qed.

Lemma get_append_tail (a b : string) (n : nat) :
  String.get (String.length a + n) (a +:+ b) = String.get n b.
Proof. induction a as [|c a IH]; simpl; auto. Qed.

Lemma HasPrefix_app (a b : string) : HasPrefix (a +:+ b) a = true.
Proof.
  unfold HasPrefix. rewrite substring_head, String.eqb_refl, andb_true_r.
  apply Nat.leb_le. rewrite length_append. lia.
Qed.

Lemma HasSuffix_app (a b : string) : HasSuffix (a +:+ b) b = true.
Proof.
  unfold HasSuffix. rewrite length_append.
  replace (String.length a + String.length b - String.length b)%nat
    with (String.length a) by lia.
  rewrite substring_tail, String.eqb_refl, andb_true_r.
  apply Nat.leb_le. lia.
Qed.

Lemma TrimSuffix_app (a b : string) : TrimSuffix (a +:+ b) b = a.
Proof.
  unfold TrimSuffix. rewrite HasSuffix_app, length_append.
  replace (String.length a + String.length b - String.length b)%nat
    with (String.length a) by lia.
  apply substring_head.
Qed.

Lemma ext_from_suffix (s : string) (i : nat) :
  exists j, (j <= String.length s)%nat
            /\ ext_from s i = String.substring j (String.length s - j) s.
Proof.
  assert (Hnone : exists j, (j <= String.length s)%nat
            /\ "" = String.substring j (String.length s - j) s).
  { exists (String.length s). split; [lia|].
    now rewrite Nat.sub_diag, substring_nothing. }
  induction i as [|i IH]; simpl; [exact Hnone|].
  destruct (String.get i s) as [ch|] eqn:Hget; [|exact Hnone].
  destruct (is_slash ch); [exact Hnone|].
  destruct (is_dot ch); [|exact IH].
  exists i. split; [|reflexivity].
  destruct (Nat.le_gt_cases i (String.length s)) as [Hle|Hgt]; [exact Hle|].
  rewrite get_beyond in Hget by lia. discriminate.
Qed.

(** A path is its stem followed by its extension. *)
Lemma path_split (s : string) : s = TrimSuffix s (Ext s) +:+ Ext s.
Proof.
  destruct (ext_from_suffix s (String.length s)) as (j & Hj & Hext).
  fold (Ext s) in Hext.
  pose proof (substring_split s j Hj) as Hs. rewrite <- Hext in Hs.
  assert (Hstem : TrimSuffix s (Ext s) = String.substring 0 j s)
    by (rewrite Hs at 1; apply TrimSuffix_app).
  rewrite Hstem. exact Hs.
Qed.

Lemma is_ascii_app (a b : string) :
  is_ascii (a +:+ b) = is_ascii a && is_ascii b.
Proof.
  induction a as [|c a IH]; simpl; [reflexivity|].
  now rewrite IH, andb_assoc.
Qed.

Lemma lower_bytes_app (a b : string) :
  lower_bytes (a +:+ b)
  = lower_bytes a +:+ lower_bytes b.
Proof. induction a as [|c a IH]; simpl; [reflexivity | now rewrite IH]. Qed.

Lemma fold_byte_lower (a b : Ascii.ascii) :
  is_ascii_byte a = true -> is_ascii_byte b = true ->
  fold_byte a b = true ->
  lower_byte a = lower_byte b.
Proof.
  unfold is_ascii_byte, fold_byte, lower_byte.
  intros Ha Hb. apply Nat.ltb_lt in Ha, Hb.
  destruct (Nat.eqb_spec (Ascii.nat_of_ascii a) (Ascii.nat_of_ascii b)) as [Heq|Hne].
  - intros _.
    assert (a = b) as ->; [|reflexivity].
    rewrite <- (Ascii.ascii_nat_embedding a), <- (Ascii.ascii_nat_embedding b). now rewrite Heq.
  - intros Hf. apply andb_prop in Hf as [Hf Hhi]. apply andb_prop in Hf as [Hlo1 Hlo2].
    apply Nat.leb_le in Hlo1, Hlo2. apply Nat.eqb_eq in Hhi.
    destruct (Nat.le_gt_cases (Ascii.nat_of_ascii a) (Ascii.nat_of_ascii b)) as [Hab|Hab].
    + rewrite Nat.min_l in * by lia. rewrite Nat.max_r in Hhi by lia.
      replace (Nat.leb 65 (Ascii.nat_of_ascii a) && Nat.leb (Ascii.nat_of_ascii a) 90) with true
        by (symmetry; apply andb_true_intro; split; apply Nat.leb_le; lia).
      replace (Nat.leb 65 (Ascii.nat_of_ascii b) && Nat.leb (Ascii.nat_of_ascii b) 90) with false
        by (symmetry; apply andb_false_intro2; apply Nat.leb_gt; lia).
      rewrite <- Hhi. apply Ascii.ascii_nat_embedding.
    + rewrite Nat.min_r in * by lia. rewrite Nat.max_l in Hhi by lia.
      replace (Nat.leb 65 (Ascii.nat_of_ascii b) && Nat.leb (Ascii.nat_of_ascii b) 90) with true
        by (symmetry; apply andb_true_intro; split; apply Nat.leb_le; lia).
      replace (Nat.leb 65 (Ascii.nat_of_ascii a) && Nat.leb (Ascii.nat_of_ascii a) 90) with false
        by (symmetry; apply andb_false_intro2; apply Nat.leb_gt; lia).
      rewrite <- Hhi. symmetry. apply Ascii.ascii_nat_embedding.
Qed.

Lemma fold_bytes_lower (s t : string) :
  is_ascii s = true -> is_ascii t = true -> fold_bytes s t = true ->
  lower_bytes s = lower_bytes t.
Proof.
  revert t. induction s as [|a s IH]; intros [|b t] Hs Ht Hf; simpl in *;
    try discriminate; [reflexivity|].
  apply andb_prop in Hs as [Ha Hs]. apply andb_prop in Ht as [Hb Ht].
  apply andb_prop in Hf as [Hab Hf].
  rewrite (fold_byte_lower a b Ha Hb Hab), (IH t Hs Ht Hf). reflexivity.
Qed.

Lemma lower_byte_fold (a b : Ascii.ascii) :
  is_ascii_byte a = true -> is_ascii_byte b = true ->
  lower_byte a = lower_byte b -> fold_byte a b = true.
Proof.
  unfold is_ascii_byte, fold_byte, lower_byte.
  intros Ha Hb. apply Nat.ltb_lt in Ha, Hb. cbv zeta.
  destruct (Nat.eqb_spec (Ascii.nat_of_ascii a) (Ascii.nat_of_ascii b)) as [Heq|Hne];
    [reflexivity|].
  destruct (Nat.leb 65 (Ascii.nat_of_ascii a) && Nat.leb (Ascii.nat_of_ascii a) 90) eqn:Hua;
    destruct (Nat.leb 65 (Ascii.nat_of_ascii b) && Nat.leb (Ascii.nat_of_ascii b) 90) eqn:Hub;
    intros Hlow.
  - apply (f_equal Ascii.nat_of_ascii) in Hlow.
    rewrite !Ascii.nat_ascii_embedding in Hlow by lia. lia.
  - apply (f_equal Ascii.nat_of_ascii) in Hlow.
    rewrite Ascii.nat_ascii_embedding in Hlow by lia.
    rewrite Nat.min_l, Nat.max_r by lia. rewrite Hua. apply Nat.eqb_eq. lia.
  - apply (f_equal Ascii.nat_of_ascii) in Hlow.
    rewrite Ascii.nat_ascii_embedding in Hlow by lia.
    rewrite Nat.min_r, Nat.max_l by lia. rewrite Hub. apply Nat.eqb_eq. lia.
  - now subst.
Qed.

Lemma lower_bytes_fold (s t : string) :
  is_ascii s = true -> is_ascii t = true ->
  lower_bytes s = lower_bytes t -> fold_bytes s t = true.
Proof.
  revert t. induction s as [|a s IH]; intros [|b t] Hs Ht Hlow; simpl in *;
    try discriminate; [reflexivity|].
  apply andb_prop in Hs as [Ha Hs]. apply andb_prop in Ht as [Hb Ht].
  injection Hlow as Hab Hlow.
  now rewrite (lower_byte_fold a b Ha Hb Hab), (IH t Hs Ht Hlow).
Qed.

Lemma fold_bytes_refl (s : string) : fold_bytes s s = true.
Proof.
  induction s as [|a s IH]; simpl; [reflexivity|].
  rewrite IH, andb_true_r. unfold fold_byte. now rewrite Nat.eqb_refl.
Qed.

Lemma plain_name_get (s : string) (n : nat) (c : Ascii.ascii) :
  plain_name s = true -> String.get n s = Some c -> plain_char c = true.
Proof.
  revert n. induction s as [|a s IH]; intros n Hp Hg; simpl in *; [discriminate|].
  apply andb_prop in Hp as [Ha Hs].
  destruct n as [|n]; [now injection Hg as <- | eauto].
Qed.

Lemma get_in_range (s : string) (n : nat) :
  (n < String.length s)%nat -> exists c, String.get n s = Some c.
Proof.
  revert n. induction s as [|a s IH]; intros n Hn; simpl in *; [lia|].
  destruct n as [|n]; [eauto | apply IH; lia].
Qed.

(** The extension of a path that ends in a dot and a plain name. *)
Lemma Ext_dot (stem e : string) :
  plain_name e = true -> Ext (stem +:+ dot +:+ e) = dot +:+ e.
Proof.
  intros He. unfold Ext.
  assert (Hlen : String.length (stem +:+ dot +:+ e)
                 = (String.length stem + 1 + String.length e)%nat)
    by (rewrite !length_append; simpl; lia).
  rewrite Hlen at 1.
  assert (Hk : forall k, (k <= String.length e)%nat ->
            ext_from (stem +:+ dot +:+ e) (String.length stem + 1 + k) = dot +:+ e).
  { induction k as [|k IH]; intros Hle.
    - replace (String.length stem + 1 + 0)%nat with (S (String.length stem)) by lia.
      simpl ext_from.
      replace (String.length stem) with (String.length stem + 0)%nat at 1 by lia.
      rewrite get_append_tail. simpl String.get. cbn [is_slash is_dot].
      change (is_slash (Ascii.ascii_of_nat 46)) with false.
      change (is_dot (Ascii.ascii_of_nat 46)) with true. cbv iota.
      rewrite Hlen.
      replace (String.length stem + 1 + String.length e - String.length stem)%nat
        with (String.length (dot +:+ e)) by (rewrite length_append; simpl; lia).
      apply substring_tail.
    - replace (String.length stem + 1 + S k)%nat
        with (S (String.length stem + (1 + k)))%nat by lia.
      simpl ext_from. rewrite get_append_tail.
      change (String.get (S k) (dot +:+ e)) with (String.get k e).
      destruct (get_in_range e k ltac:(lia)) as [ch Hch]. rewrite Hch.
      pose proof (plain_name_get e k ch He Hch) as Hplain.
      unfold plain_char in Hplain. apply andb_prop in Hplain as [Hd Hs].
      apply negb_true_iff in Hd, Hs. rewrite Hs, Hd.
      replace (String.length stem + S k)%nat
        with (String.length stem + 1 + k)%nat by lia.
      apply IH. lia. }
  apply Hk. lia.
Qed.
End StringFacts.

(** ** The [DiffSuppressFunc]s *)

Section SuppressFacts.
Import schema gostd suppress.
Context `{!Unicode}.

Lemma ToLower_ascii (s : string) :
  is_ascii s = true -> ToLower s = lower_bytes s.
Proof. intros Hs. unfold ToLower. now rewrite Hs. Qed.

Lemma is_ascii_split (s : string) :
  is_ascii s = true ->
  is_ascii (TrimSuffix s (Ext s)) = true /\ is_ascii (Ext s) = true.
Proof.
  intros Hs. rewrite (path_split s), is_ascii_app in Hs.
  now apply andb_prop in Hs.
Qed.

(** On ASCII paths the function of [path] is decided by its first test
    alone: the old path, lower-cased, begins with the new path less its
    extension and ends with that extension.  The [EqualFold] test that
    follows never adds a case. *)
Theorem pathDiffSuppress_ascii (k oldValue newValue : string) (d : ResourceData) :
  is_ascii oldValue = true -> is_ascii newValue = true ->
  pathDiffSuppress k oldValue newValue d
  = HasPrefix (lower_bytes oldValue)
      (lower_bytes (TrimSuffix newValue (Ext newValue)))
    && HasSuffix (lower_bytes oldValue)
         (lower_bytes (Ext newValue)).
Proof.
  intros Ho Hn. destruct (is_ascii_split newValue Hn) as [Hstem Hext].
  unfold pathDiffSuppress. cbv zeta.
  rewrite !ToLower_ascii by assumption.
  destruct (HasPrefix _ _ && HasSuffix _ _) eqn:Htest; [reflexivity|].
  unfold EqualFold. rewrite Ho, Hn. cbn [andb].
  destruct (fold_bytes oldValue newValue) eqn:Hfold; [|reflexivity].
  exfalso.
  pose proof (fold_bytes_lower _ _ Ho Hn Hfold) as Hlow.
  rewrite (path_split newValue), lower_bytes_app in Hlow at 1.
  rewrite Hlow, HasPrefix_app, HasSuffix_app in Htest. discriminate.
Qed.

Lemma append_assoc (a b c : string) : (a +:+ b) +:+ c = a +:+ b +:+ c.
Proof.
  induction a as [|x a IH]; [reflexivity|].
  change (String x ((a +:+ b) +:+ c) = String x (a +:+ b +:+ c)). now rewrite IH.
Qed.

Lemma append_empty (a : string) : a +:+ "" = a.
Proof.
  induction a as [|x a IH]; [reflexivity|].
  change (String x (a +:+ "") = String x a). now rewrite IH.
Qed.

(** The function of [path] suppresses the difference when the old path
    is, up to the case of letters, the new one with anything inserted
    before the dot of its extension: [disk_1234.vhdx] in the state
    against [disk.vhdx] in the configuration. *)
Theorem pathDiffSuppress_inserted (k stem mid e oldValue : string) (d : ResourceData) :
  is_ascii oldValue = true -> is_ascii stem = true -> is_ascii e = true ->
  plain_name e = true ->
  lower_bytes oldValue
    = lower_bytes (stem +:+ mid +:+ dot +:+ e) ->
  pathDiffSuppress k oldValue (stem +:+ dot +:+ e) d = true.
Proof.
  intros Ho Hs He Hplain Hold.
  assert (Hnew : is_ascii (stem +:+ dot +:+ e) = true)
    by (rewrite !is_ascii_app, Hs, He; reflexivity).
  rewrite (pathDiffSuppress_ascii k _ _ d Ho Hnew).
  rewrite (Ext_dot stem e Hplain), TrimSuffix_app, Hold.
  apply andb_true_intro. split.
  - rewrite lower_bytes_app. apply HasPrefix_app.
  - rewrite <- (append_assoc stem mid), lower_bytes_app. apply HasSuffix_app.
Qed.

(** For a new path with no extension the function of [path] asks only
    that the old path begin with it, up to case; so any old path that
    extends the new one is taken for the same. *)
Theorem pathDiffSuppress_no_extension (k oldValue newValue : string) (d : ResourceData) :
  is_ascii oldValue = true -> is_ascii newValue = true ->
  Ext newValue = "" ->
  pathDiffSuppress k oldValue newValue d
  = HasPrefix (lower_bytes oldValue) (lower_bytes newValue)
  /\ forall rest, is_ascii rest = true ->
       pathDiffSuppress k (newValue +:+ rest) newValue d = true.
Proof.
  intros Ho Hn Hext.
  assert (Hchar : forall o, is_ascii o = true ->
            pathDiffSuppress k o newValue d
            = HasPrefix (lower_bytes o) (lower_bytes newValue)).
  { intros o Hoa. rewrite (pathDiffSuppress_ascii k _ _ d Hoa Hn), Hext.
    rewrite <- (append_empty newValue) at 1. rewrite TrimSuffix_app.
    rewrite <- (append_empty (lower_bytes o)) at 2.
    change (lower_bytes "") with "".
    rewrite HasSuffix_app. apply andb_true_r. }
  split; [exact (Hchar _ Ho)|].
  intros rest Hr. rewrite Hchar by (rewrite is_ascii_app, Hn, Hr; reflexivity).
  rewrite lower_bytes_app. apply HasPrefix_app.
Qed.

(** Paths that differ in the case of letters only are the same for the
    function of [path]. *)
Theorem pathDiffSuppress_case (k oldValue newValue : string) (d : ResourceData) :
  is_ascii oldValue = true -> is_ascii newValue = true ->
  lower_bytes oldValue = lower_bytes newValue ->
  pathDiffSuppress k oldValue newValue d = true.
Proof.
  intros Ho Hn Hlow.
  rewrite (pathDiffSuppress_ascii k _ _ d Ho Hn), Hlow.
  pose proof (path_split newValue) as Hsplit.
  remember (TrimSuffix newValue (Ext newValue)) as stem.
  remember (Ext newValue) as ext.
  rewrite Hsplit, lower_bytes_app.
  now rewrite HasPrefix_app, HasSuffix_app.
Qed.
(** On ASCII paths the function of [parent_path] suppresses the
    difference exactly when the two paths are equal once lower-cased. *)
Theorem parentPathDiffSuppress_ascii (k oldValue newValue : string)
    (d : ResourceData) :
  is_ascii oldValue = true -> is_ascii newValue = true ->
  parentPathDiffSuppress k oldValue newValue d
  = String.eqb (lower_bytes oldValue) (lower_bytes newValue).
Proof.
  intros Ho Hn. unfold parentPathDiffSuppress, EqualFold.
  rewrite Ho, Hn. cbn [andb].
  destruct (String.eqb_spec (lower_bytes oldValue) (lower_bytes newValue))
    as [Heq|Hne].
  - now apply lower_bytes_fold.
  - destruct (fold_bytes oldValue newValue) eqn:Hfold; [|reflexivity].
    now apply fold_bytes_lower in Hfold.
Qed.

End SuppressFacts.


(** ** The statements on the sample runs *)

Section OnSamples.
Import api schema diag provider hyperv_winrm sample.

Lemma handle_eta {A : Type} (x : Outcome A * Run (W := unit)) :
  x = (fst x, snd x).
Proof. now destruct x. Qed.


(** A refresh of a disk that is gone returns no diagnostics and records
    that it does not exist. *)
Lemma resource_read_exists_witness :
  (schema_ (data refresh_run) = Schema_ resourceHyperVVhd
   /\ api.GetVhd nowhere (Id (data refresh_run)) (world refresh_run)
      = ((no_vhd, None), tt)
   /\ VhdPath no_vhd = "")
  /\ exists r',
       handle (resourceHyperVVhdRead nowhere) refresh_run = (Returns [], r')
       /\ Get (data r') "exists" = VBool false.
Proof.
  split; [repeat split|].
  exact (proj1 (proj2 (proj2 (resource_read_exists nowhere refresh_run)))
           no_vhd tt eq_refl eq_refl eq_refl).
Defined.

(** The DVD data-source read of a disk that is there fails. *)
Lemma dvd_datasource_read_fails_witness :
  schema_ (data lookup_run) = Schema_ dataSourceHyperVDvd
  /\ fst (handle (datasourceHyperVDvdRead here) lookup_run) <> Returns []
  /\ fst (handle (datasourceHyperVDvdRead here) lookup_run)
     = Returns (FromErr (Some (invalid_address "exists"))).
Proof.
  pose proof (dvd_datasource_read_fails here lookup_run _ _
                eq_refl (handle_eta _)) as (Hne & _ & Hlookup & _).
  split; [reflexivity|]. split; [exact Hne|].
  exact (proj1 (Hlookup disk_path disk tt eq_refl eq_refl)).
Defined.

(** A create of a differencing disk, size 0 and a parent path, calls
    [CreateOrUpdateVhd] and not [ResizeVhd]. *)
Lemma resize_follow_up_witness :
  (Get (data differencing_run) "size" = VInt 0
   /\ Get (data differencing_run) "parent_path" = VString disk_path)
  /\ existsb is_ResizeVhd
       (since differencing_run
          (snd (handle (resourceHyperVVhdCreate child) differencing_run)))
     = false
  /\ exists args err,
       In (CallCreateOrUpdateVhd args err)
          (since differencing_run
             (snd (handle (resourceHyperVVhdCreate child) differencing_run)))
       /\ a_path args = "c:/vms/child.vhdx"
       /\ a_parentPath args = disk_path
       /\ a_size args = 0.
Proof.
  split; [split; reflexivity|].
  refine (proj2 (proj2 (resize_follow_up child differencing_run 0 disk_path
                          eq_refl eq_refl))
            "c:/vms/child.vhdx" _ _ eq_refl _ eq_refl eq_refl
            eq_refl _ (handle_eta _)).
  - discriminate.
  - intros _. exists {| Exists := false |}, tt. split; reflexivity.
Defined.

(** [GetDvd] of an ISO that is not on the host. *)
Lemma GetDvd_absent_path_witness :
  (Test_Path host "c:/vms/none.iso" = false
   /\ execute transport
        (render getDvdTemplate (getDvdArgs "c:/vms/none.iso" "172.16.14.84")) tt
      = (({| exitCode := 0; stdout := "{}"; stderr := "" |}, None), tt))
  /\ hyperv_winrm.GetDvd winrm "c:/vms/none.iso" "172.16.14.84" tt
     = (({| Path := ""; Ip := "" |}, None), tt).
Proof.
  split; [split; reflexivity|].
  exact (proj1 (proj2 (GetDvd_absent_path parse_object transport host
                         "c:/vms/none.iso" "172.16.14.84" "{}" tt tt
                         eq_refl (or_introl eq_refl) eq_refl))).
Defined.

(** A create whose existence check fails: the check is the whole journal
    and the diagnostic carries the wrapped text. *)
Lemma client_error_ends_operation_witness :
  (since create_run (snd (handle (operation unreachable VhdCreate) create_run))
   = ([] ++ CallVhdExists disk_path {| Exists := true |} (Some boom) :: [])%list
   /\ call_error (CallVhdExists disk_path {| Exists := true |} (Some boom))
      = Some boom)
  /\ fst (handle (operation unreachable VhdCreate) create_run)
     = Returns (FromErr (Some (checking_for_existing disk_path boom))).
Proof.
  assert (Hsince :
    since create_run (snd (handle (operation unreachable VhdCreate) create_run))
    = ([] ++ CallVhdExists disk_path {| Exists := true |} (Some boom) :: [])%list)
    by (vm_compute; reflexivity).
  split; [split; [exact Hsince | reflexivity]|].
  exact (proj1 (client_error_ends_operation unreachable VhdCreate create_run
                  _ _ [] _ [] boom (handle_eta _) Hsince eq_refl)).
Defined.

(** A create with no path configured. *)
Lemma path_required_witness :
  snd (GetOk (data unset_run) "path") = false
  /\ handle (resourceHyperVVhdCreate here) unset_run
     = (Returns (Errorf "[ERROR][hyperv][create] path argument is required"),
        unset_run).
Proof.
  split; [reflexivity|].
  exact (proj1 (path_required here unset_run eq_refl)).
Defined.

(** [GetDvd] of the ISO that is on the host returns the decoded output. *)
Lemma dvd_methods_runners_witness :
  (script_failed
     {| exitCode := 0;
        stdout := getDvdScript host "c:/vms/seed.iso" "172.16.14.84";
        stderr := "" |} = false
   /\ execute transport
        (render getDvdTemplate (getDvdArgs "c:/vms/seed.iso" "172.16.14.84")) tt
      = (({| exitCode := 0;
             stdout := getDvdScript host "c:/vms/seed.iso" "172.16.14.84";
             stderr := "" |}, None), tt))
  /\ hyperv_winrm.GetDvd winrm "c:/vms/seed.iso" "172.16.14.84" tt
     = (decode parse_object
          (getDvdScript host "c:/vms/seed.iso" "172.16.14.84"), tt)
  /\ decode parse_object (getDvdScript host "c:/vms/seed.iso" "172.16.14.84")
     = ({| Path := "c:/vms/seed.iso"; Ip := "172.16.14.84" |}, None).
Proof.
  split; [split; reflexivity|].
  split; [|vm_compute; reflexivity].
  exact (proj1 (proj2 (dvd_methods_runners parse_object) transport
                  "c:/vms/seed.iso" "172.16.14.84"
                  {| exitCode := 0;
                     stdout := getDvdScript host "c:/vms/seed.iso" "172.16.14.84";
                     stderr := "" |} tt tt eq_refl) eq_refl).
Defined.

(** A create of a disk that is already on the host. *)
Lemma create_refuses_existing_witness :
  (IsNewResource (data create_run) = true
   /\ GetOk (data create_run) "path" = (VString disk_path, true)
   /\ api.VhdExists here disk_path (world create_run)
      = (({| Exists := true |}, None), tt))
  /\ handle (resourceHyperVVhdCreate here) create_run
     = (Returns (FromErr (Some (already_exists disk_path))),
        {| data := data create_run; world := tt;
           journal := [CallVhdExists disk_path {| Exists := true |} None] |}).
Proof.
  split; [repeat split|].
  exact (proj1 (proj2 (create_refuses_existing here create_run disk_path
                         eq_refl eq_refl)
                  {| Exists := true |} tt eq_refl eq_refl)).
Defined.

(** A refresh of a differencing disk stores the parent path and leaves
    the size as it was. *)
Lemma vhd_read_geometry_witness :
  handle (resourceHyperVVhdRead child) refresh_run
  = (Returns [], snd (handle (resourceHyperVVhdRead child) refresh_run))
  /\ Get (data (snd (handle (resourceHyperVVhdRead child) refresh_run)))
       "parent_path" = VString "c:/vms/disk.vhdx"
  /\ Get (data (snd (handle (resourceHyperVVhdRead child) refresh_run))) "size"
     = Get (data refresh_run) "size".
Proof.
  assert (Hrun : handle (resourceHyperVVhdRead child) refresh_run
                 = (Returns [], snd (handle (resourceHyperVVhdRead child) refresh_run)))
    by (vm_compute; reflexivity).
  split; [exact Hrun|].
  destruct (vhd_read_geometry child refresh_run _ Hrun)
    as (vhd & Hget & _ & _ & _ & Hdiff & _).
  assert (vhd = child_disk) as ->
    by (vm_compute in Hget; injection Hget as <-; reflexivity).
  destruct (Hdiff eq_refl) as (_ & Hparent & Hsize & _).
  split; [exact Hparent | exact Hsize].
Defined.

(** An update of a disk that exists, with nothing changed: the size is
    positive and the parent path is empty, yet [ResizeVhd] is not called. *)
Lemma update_without_resize :
  Get (data update_run) "size" = VInt 8192
  /\ Get (data update_run) "parent_path" = VString ""
  /\ fst (handle (resourceHyperVVhdUpdate here) update_run) = Returns []
  /\ ~ (existsb is_ResizeVhd
          (since update_run (snd (handle (resourceHyperVVhdUpdate here) update_run)))
        = true
        <-> 0 < uint64 8192 /\ "" = "").
Proof.
  repeat split.
  intros [_ Hresize].
  assert (Hno : existsb is_ResizeVhd
            (since update_run (snd (handle (resourceHyperVVhdUpdate here) update_run)))
          = false)
    by (vm_compute; reflexivity).
  rewrite Hresize in Hno; [discriminate|]. split; reflexivity.
Qed.

(** A create whose existence check fails with [boom] does not return
    [boom] as its diagnostic. *)
Lemma create_wraps_existence_error :
  since create_run (snd (handle (operation unreachable VhdCreate) create_run))
  = [CallVhdExists disk_path {| Exists := true |} (Some boom)]
  /\ fst (handle (operation unreachable VhdCreate) create_run)
     <> Returns (FromErr (Some boom))
  /\ fst (handle (operation unreachable VhdCreate) create_run)
     = Returns (Errorf "checking for existing c:/vms/disk.vhdx: connection reset").
Proof.
  split; [vm_compute; reflexivity|].
  split; [vm_compute; discriminate | vm_compute; reflexivity].
Qed.

End OnSamples.

(** ** Further statements on the sample runs *)

Section MoreOnSamples.
Import api schema diag provider gostd suppress sample.


(** A create of a DVD is the one call [CreateDvd]. *)
Lemma single_call_handlers_witness :
  (fst (handle (operation here DvdCreate) dvd_create_run) = Panics
   /\ since dvd_create_run (snd (handle (operation here DvdCreate) dvd_create_run))
      = []
   /\ data (snd (handle (operation here DvdCreate) dvd_create_run))
      = data dvd_create_run)
  \/ exists path ip,
       Get (data dvd_create_run) "path" = VString path
       /\ Get (data dvd_create_run) "ip" = VString ip
       /\ fst (handle (operation here DvdCreate) dvd_create_run)
          = Returns (FromErr (fst (CreateDvd here path ip (world dvd_create_run))))
       /\ since dvd_create_run
            (snd (handle (operation here DvdCreate) dvd_create_run))
          = [CallCreateDvd path ip
               (fst (CreateDvd here path ip (world dvd_create_run)))]
       /\ data (snd (handle (operation here DvdCreate) dvd_create_run))
          = match fst (CreateDvd here path ip (world dvd_create_run)) with
            | Some _ => data dvd_create_run
            | None => SetId (data dvd_create_run) path
            end.
Proof.
  exact (single_call_handlers here DvdCreate dvd_create_run _ _ (handle_eta _)).
Defined.

(** A create of a new disk does not panic. *)
Lemma handlers_do_not_panic_witness :
  (schema_ (data create_run) = Schema_ (resource_of VhdCreate)
   /\ well_typed (data create_run) = true)
  /\ fst (handle (operation created VhdCreate) create_run) <> Panics.
Proof.
  assert (Hwt : well_typed (data create_run) = true) by (vm_compute; reflexivity).
  split; [split; [reflexivity | exact Hwt]|].
  exact (handlers_do_not_panic created VhdCreate create_run eq_refl Hwt).
Defined.

(** Every write of a refresh of a managed disk is accepted. *)
Lemma resource_writes_accepted_witness :
  (VhdRead <> DvdDataSourceRead
   /\ schema_ (data refresh_run) = Schema_ (resource_of VhdRead))
  /\ forall key v err,
       In (DataSet key v err)
          (since refresh_run (snd (handle (operation here VhdRead) refresh_run))) ->
       err = None.
Proof.
  assert (Hop : VhdRead <> DvdDataSourceRead) by discriminate.
  split; [split; [exact Hop | reflexivity]|].
  exact (resource_writes_accepted here VhdRead refresh_run _ _
           Hop eq_refl (handle_eta _)).
Defined.

(** A refresh of a managed disk returns what the lookup's error gives. *)
Lemma reads_fail_only_on_lookup_witness :
  schema_ (data refresh_run) = Schema_ (resource_of VhdRead)
  /\ exists vhd err,
       GetVhd here (Id (data refresh_run)) (world refresh_run)
       = ((vhd, err), world (snd (handle (operation here VhdRead) refresh_run)))
       /\ fst (handle (operation here VhdRead) refresh_run) = Returns (FromErr err)
       /\ (err <> None ->
           data (snd (handle (operation here VhdRead) refresh_run))
           = data refresh_run
           /\ since refresh_run (snd (handle (operation here VhdRead) refresh_run))
              = [CallGetVhd (Id (data refresh_run)) vhd err]).
Proof.
  split; [reflexivity|].
  exact (reads_fail_only_on_lookup here VhdRead refresh_run _ _
           eq_refl (handle_eta _)).
Defined.

(** A create of a new 8 KiB disk on a host that has none. *)
Lemma create_success_witness :
  handle (resourceHyperVVhdCreate created) create_run
  = (Returns [], snd (handle (resourceHyperVVhdCreate created) create_run))
  /\ exists path args vhd,
       GetOk (data create_run) "path" = (VString path, true)
       /\ Id (data (snd (handle (resourceHyperVVhdCreate created) create_run)))
          = path
       /\ a_path args = path
       /\ calls (since create_run
                   (snd (handle (resourceHyperVVhdCreate created) create_run)))
          = ((if IsNewResource (data create_run)
              then [CallVhdExists path {| Exists := false |} None] else [])
             ++ [CallCreateOrUpdateVhd args None]
             ++ (if (0 <? a_size args) && String.eqb (a_parentPath args) ""
                 then [CallResizeVhd path (a_size args) None] else [])
             ++ [CallGetVhd path vhd None])%list
       /\ Get (data (snd (handle (resourceHyperVVhdCreate created) create_run)))
            "exists"
          = VBool (negb (String.eqb (VhdPath vhd) "")).
Proof.
  assert (Hrun : handle (resourceHyperVVhdCreate created) create_run
                 = (Returns [],
                    snd (handle (resourceHyperVVhdCreate created) create_run)))
    by (vm_compute; reflexivity).
  split; [exact Hrun|].
  exact (create_success created create_run _ Hrun).
Defined.

(** An update of a disk that exists, with nothing changed. *)
Lemma update_recreates_witness :
  Get (data update_run) "exists" = VBool true
  /\ (forall ev,
        In ev (calls (since update_run
                        (snd (handle (resourceHyperVVhdUpdate here) update_run)))) ->
        is_update_call ev = true /\ call_path ev = Some (Id (data update_run)))
  /\ (existsb is_CreateOrUpdateVhd
        (since update_run (snd (handle (resourceHyperVVhdUpdate here) update_run)))
      = true ->
      recreate_guard (data update_run) true = true)
  /\ ((exists ds, fst (handle (resourceHyperVVhdUpdate here) update_run)
                  = Returns ds) ->
      recreate_guard (data update_run) true = true ->
      existsb is_CreateOrUpdateVhd
        (since update_run (snd (handle (resourceHyperVVhdUpdate here) update_run)))
      = true).
Proof.
  split; [reflexivity|].
  exact (update_recreates here update_run _ _ true eq_refl (handle_eta _)).
Defined.

(** A create with the size -4096 resizes to 2^64 - 4096. *)
Lemma create_negative_size_witness :
  (Get (data negative_run) "size" = VInt (-4096)
   /\ Get (data negative_run) "parent_path" = VString ""
   /\ - 2 ^ 63 <= -4096 < 0
   /\ existsb is_created
        (since negative_run
           (snd (handle (resourceHyperVVhdCreate created) negative_run)))
      = true)
  /\ existsb is_ResizeVhd
       (since negative_run
          (snd (handle (resourceHyperVVhdCreate created) negative_run)))
     = true
  /\ forall path size err,
       In (CallResizeVhd path size err)
          (since negative_run
             (snd (handle (resourceHyperVVhdCreate created) negative_run))) ->
       size = -4096 + 2 ^ 64.
Proof.
  assert (Hn : - 2 ^ 63 <= -4096 < 0) by lia.
  assert (Hcreated :
    existsb is_created
      (since negative_run
         (snd (handle (resourceHyperVVhdCreate created) negative_run)))
    = true) by (vm_compute; reflexivity).
  split; [repeat split; solve [reflexivity | apply Hn | exact Hcreated]|].
  exact (create_negative_size created negative_run _ _ (-4096)
           eq_refl eq_refl Hn (handle_eta _) Hcreated).
Defined.

(** A refresh of a managed dynamic disk stores its size. *)
Lemma read_stores_size_witness :
  handle (resourceHyperVVhdRead here) refresh_run = (Returns [], refreshed_run)
  /\ exists vhd,
       GetVhd here (Id (data refresh_run)) (world refresh_run)
       = ((vhd, None), world refreshed_run)
       /\ (VhdType_ vhd <> VhdType_Differencing ->
           (0 <= Size vhd < 2 ^ 63 ->
            Get (data refreshed_run) "size" = VInt (Size vhd))
           /\ (2 ^ 63 <= Size vhd < 2 ^ 64 ->
               Get (data refreshed_run) "size" = VInt (Size vhd - 2 ^ 64))
           /\ (forall n, - 2 ^ 63 <= n < 2 ^ 63 -> Size vhd = uint64 n ->
               Get (data refreshed_run) "size" = VInt n)).
Proof.
  assert (Hrun : handle (resourceHyperVVhdRead here) refresh_run
                 = (Returns [], refreshed_run))
    by (vm_compute; reflexivity).
  split; [exact Hrun|].
  exact (read_stores_size here refresh_run refreshed_run Hrun).
Defined.

(** A second refresh on the same host changes nothing. *)
Lemma vhd_read_idempotent_witness :
  (handle (resourceHyperVVhdRead here) refresh_run = (Returns [], refreshed_run)
   /\ fst (GetVhd here (Id (data refreshed_run)) (world refreshed_run))
      = fst (GetVhd here (Id (data refresh_run)) (world refresh_run)))
  /\ fst (handle (resourceHyperVVhdRead here) refreshed_run) = Returns []
  /\ data (snd (handle (resourceHyperVVhdRead here) refreshed_run))
     = data refreshed_run.
Proof.
  assert (Hrun : handle (resourceHyperVVhdRead here) refresh_run
                 = (Returns [], refreshed_run))
    by (vm_compute; reflexivity).
  split; [split; [exact Hrun | reflexivity]|].
  exact (vhd_read_idempotent here refresh_run refreshed_run _ _
           Hrun eq_refl (handle_eta _)).
Defined.

(** The stored path of a differencing disk against the configured one. *)
Lemma pathDiffSuppress_ascii_witness :
  (is_ascii "c:/vms/Disk_1234.VHDX" = true /\ is_ascii "c:/vms/disk.vhdx" = true)
  /\ pathDiffSuppress "path" "c:/vms/Disk_1234.VHDX" "c:/vms/disk.vhdx"
       (data create_run)
     = HasPrefix (lower_bytes "c:/vms/Disk_1234.VHDX")
         (lower_bytes (TrimSuffix "c:/vms/disk.vhdx" (Ext "c:/vms/disk.vhdx")))
       && HasSuffix (lower_bytes "c:/vms/Disk_1234.VHDX")
            (lower_bytes (Ext "c:/vms/disk.vhdx")).
Proof.
  split; [split; reflexivity|].
  exact (pathDiffSuppress_ascii "path" "c:/vms/Disk_1234.VHDX" "c:/vms/disk.vhdx"
           (data create_run) eq_refl eq_refl).
Defined.

(** [C:/VMS/DISK_1234.VHDX] in the state against [c:/vms/disk.vhdx]. *)
Lemma pathDiffSuppress_inserted_witness :
  (is_ascii "C:/VMS/DISK_1234.VHDX" = true
   /\ is_ascii "c:/vms/disk" = true
   /\ is_ascii "vhdx" = true
   /\ plain_name "vhdx" = true
   /\ lower_bytes "C:/VMS/DISK_1234.VHDX"
      = lower_bytes ("c:/vms/disk" +:+ "_1234" +:+ dot +:+ "vhdx"))
  /\ pathDiffSuppress "path" "C:/VMS/DISK_1234.VHDX"
       ("c:/vms/disk" +:+ dot +:+ "vhdx") (data create_run)
     = true.
Proof.
  split; [repeat split|].
  exact (pathDiffSuppress_inserted "path" "c:/vms/disk" "_1234" "vhdx"
           "C:/VMS/DISK_1234.VHDX" (data create_run)
           eq_refl eq_refl eq_refl eq_refl eq_refl).
Defined.

(** A configured path with no extension. *)
Lemma pathDiffSuppress_no_extension_witness :
  (is_ascii "c:/vms/disk2" = true /\ is_ascii "c:/vms/disk" = true
   /\ Ext "c:/vms/disk" = "")
  /\ pathDiffSuppress "path" "c:/vms/disk2" "c:/vms/disk" (data create_run)
     = HasPrefix (lower_bytes "c:/vms/disk2") (lower_bytes "c:/vms/disk")
  /\ forall rest, is_ascii rest = true ->
       pathDiffSuppress "path" ("c:/vms/disk" +:+ rest) "c:/vms/disk"
         (data create_run)
       = true.
Proof.
  split; [repeat split|].
  exact (pathDiffSuppress_no_extension "path" "c:/vms/disk2" "c:/vms/disk"
           (data create_run) eq_refl eq_refl eq_refl).
Defined.

(** Paths that differ in case only. *)
Lemma pathDiffSuppress_case_witness :
  (is_ascii "C:/VMS/Disk.VHDX" = true /\ is_ascii "c:/vms/disk.vhdx" = true
   /\ lower_bytes "C:/VMS/Disk.VHDX" = lower_bytes "c:/vms/disk.vhdx")
  /\ pathDiffSuppress "path" "C:/VMS/Disk.VHDX" "c:/vms/disk.vhdx"
       (data create_run)
     = true.
Proof.
  split; [repeat split|].
  exact (pathDiffSuppress_case "path" "C:/VMS/Disk.VHDX" "c:/vms/disk.vhdx"
           (data create_run) eq_refl eq_refl eq_refl).
Defined.

(** Parent paths that differ in case only. *)
Lemma parentPathDiffSuppress_ascii_witness :
  (is_ascii "C:/VMS/Base.vhdx" = true /\ is_ascii "c:/vms/base.vhdx" = true)
  /\ parentPathDiffSuppress "parent_path" "C:/VMS/Base.vhdx" "c:/vms/base.vhdx"
       (data differencing_run)
     = String.eqb (lower_bytes "C:/VMS/Base.vhdx") (lower_bytes "c:/vms/base.vhdx").
Proof.
  split; [split; reflexivity|].
  exact (parentPathDiffSuppress_ascii "parent_path" "C:/VMS/Base.vhdx"
           "c:/vms/base.vhdx" (data differencing_run) eq_refl eq_refl).
Defined.

End MoreOnSamples.
